(** * OPLauncher.Hook.Native: the two code patches of dllmain.cpp

    A shallow embedding of [src/OPLauncher.Hook.Native/dllmain.cpp]: the
    globals of the DLL, the host process memory it patches, the three Win32
    calls it makes (VirtualProtect, VirtualAlloc, VirtualFree) and the
    functions InstallMutexHook, InstallFileHook, InstallAllHooks,
    RemoveAllHooks, DllMain and HookStartup, written in a small state and
    fault monad so that each definition reads like the C function. *)

From stdpp Require Import gmap list.

Open Scope Z_scope.

(** ** 32-bit machine words (DWORD) and bytes (BYTE) *)

Definition wrap32 (x : Z) : Z := x mod 2 ^ 32.
Definition add32 (a b : Z) : Z := wrap32 (a + b).
Definition sub32 (a b : Z) : Z := wrap32 (a - b).

(** The value of a DWORD read as a signed displacement. *)
Definition signed32 (x : Z) : Z := if x <? 2 ^ 31 then x else x - 2 ^ 32.

(** [memcpy(p, &dword, 4)] on a little-endian target. *)
Definition le32 (x : Z) : list Z :=
  [Z.land x 255;
   Z.land (Z.shiftr x 8) 255;
   Z.land (Z.shiftr x 16) 255;
   Z.land (Z.shiftr x 24) 255].

Definition of_le32 (bs : list Z) : Z :=
  match bs with
  | [b0; b1; b2; b3] =>
      Z.lor b0 (Z.lor (Z.shiftl b1 8) (Z.lor (Z.shiftl b2 16) (Z.shiftl b3 24)))
  | _ => 0
  end.

(** ** Constants of the source and of Windows.h *)

Definition CLIENT_ISALREADYRUNNING_ADDR : Z := 0x004122A0.
Definition CLBLOCKALLOCATOR_OPENDATAFILE_ADDR : Z := 0x00675920.

Definition PAGE_READWRITE : Z := 0x04.
Definition PAGE_WRITECOPY : Z := 0x08.
Definition PAGE_EXECUTE_READ : Z := 0x20.
Definition PAGE_EXECUTE_READWRITE : Z := 0x40.
Definition PAGE_EXECUTE_WRITECOPY : Z := 0x80.
Definition PAGE_READONLY : Z := 0x02.
Definition DLL_PROCESS_ATTACH : Z := 1.
Definition DLL_PROCESS_DETACH : Z := 0.
Definition NULL : Z := 0.

Definition PAGE_SIZE : Z := 4096.
Definition ALLOCATION_GRANULARITY : Z := 65536.

(** ** Host memory *)

(** Byte contents of the 32-bit address space. *)
Definition Memory := Z -> Z.

Fixpoint load_bytes (m : Memory) (a : Z) (n : nat) : list Z :=
  match n with
  | O => []
  | S k => m a :: load_bytes m (a + 1) k
  end.

Definition store_bytes (m : Memory) (a : Z) (bs : list Z) : Memory :=
  fun x =>
    if (a <=? x) && (x <? a + Z.of_nat (length bs))
    then nth (Z.to_nat (x - a)) bs 0
    else m x.

Definition zero_range (m : Memory) (a size : Z) : Memory :=
  fun x => if (a <=? x) && (x <? a + size) then 0 else m x.

(** The pages a region [addr, addr+size) touches. *)
Definition page_of (addr : Z) : Z := addr / PAGE_SIZE.

Definition region_pages (addr size : Z) : list Z :=
  seqZ (page_of addr) (page_of (addr + size - 1) - page_of addr + 1).

Definition prot_writable (pr : Z) : bool :=
  existsb (Z.eqb pr)
    [PAGE_READWRITE; PAGE_WRITECOPY; PAGE_EXECUTE_READWRITE; PAGE_EXECUTE_WRITECOPY].

Definition prot_readable (pr : Z) : bool :=
  existsb (Z.eqb pr)
    [PAGE_READONLY; PAGE_READWRITE; PAGE_WRITECOPY;
     PAGE_EXECUTE_READ; PAGE_EXECUTE_READWRITE; PAGE_EXECUTE_WRITECOPY].

(** ** Observable events: system calls and stores into host memory, in
    program order. *)

Inductive Event : Type :=
  | EvProtect (addr size prot : Z) (ok : bool)
  | EvAlloc (size result : Z)
  | EvFree (addr : Z) (ok : bool)
  | EvStore (addr : Z) (bytes : list Z).

(** ** The state: host process and the DLL's globals *)

#[projections(primitive)] Record World : Type := mkWorld {
  (* host process *)
  mem : Memory;
  pages : gmap Z Z;           (* committed pages and their protection *)
  allocs : gmap Z Z;          (* live VirtualAlloc blocks: base -> size *)
  va_supply : list Z;         (* addresses the system will offer to VirtualAlloc *)
  trace : list Event;
  (* globals of dllmain.cpp *)
  g_mutexOriginalBytes : list Z;      (* BYTE[16] *)
  g_fileOriginalBytes : list Z;       (* BYTE[32] *)
  g_hooksInstalled : bool;
  g_fileHookTrampoline : Z;
  g_originalOpenDataFile : Z
}.

Definition set_mem (x : Memory) (w : World) : World :=
  mkWorld x (pages w) (allocs w) (va_supply w) (trace w)
    (g_mutexOriginalBytes w) (g_fileOriginalBytes w) (g_hooksInstalled w)
    (g_fileHookTrampoline w) (g_originalOpenDataFile w).
Definition set_pages (x : gmap Z Z) (w : World) : World :=
  mkWorld (mem w) x (allocs w) (va_supply w) (trace w)
    (g_mutexOriginalBytes w) (g_fileOriginalBytes w) (g_hooksInstalled w)
    (g_fileHookTrampoline w) (g_originalOpenDataFile w).
Definition set_allocs (x : gmap Z Z) (w : World) : World :=
  mkWorld (mem w) (pages w) x (va_supply w) (trace w)
    (g_mutexOriginalBytes w) (g_fileOriginalBytes w) (g_hooksInstalled w)
    (g_fileHookTrampoline w) (g_originalOpenDataFile w).
Definition set_va_supply (x : list Z) (w : World) : World :=
  mkWorld (mem w) (pages w) (allocs w) x (trace w)
    (g_mutexOriginalBytes w) (g_fileOriginalBytes w) (g_hooksInstalled w)
    (g_fileHookTrampoline w) (g_originalOpenDataFile w).
Definition add_event (e : Event) (w : World) : World :=
  mkWorld (mem w) (pages w) (allocs w) (va_supply w) (trace w ++ [e])
    (g_mutexOriginalBytes w) (g_fileOriginalBytes w) (g_hooksInstalled w)
    (g_fileHookTrampoline w) (g_originalOpenDataFile w).
Definition set_g_mutexOriginalBytes (x : list Z) (w : World) : World :=
  mkWorld (mem w) (pages w) (allocs w) (va_supply w) (trace w)
    x (g_fileOriginalBytes w) (g_hooksInstalled w)
    (g_fileHookTrampoline w) (g_originalOpenDataFile w).
Definition set_g_fileOriginalBytes (x : list Z) (w : World) : World :=
  mkWorld (mem w) (pages w) (allocs w) (va_supply w) (trace w)
    (g_mutexOriginalBytes w) x (g_hooksInstalled w)
    (g_fileHookTrampoline w) (g_originalOpenDataFile w).
Definition set_g_hooksInstalled (x : bool) (w : World) : World :=
  mkWorld (mem w) (pages w) (allocs w) (va_supply w) (trace w)
    (g_mutexOriginalBytes w) (g_fileOriginalBytes w) x
    (g_fileHookTrampoline w) (g_originalOpenDataFile w).
Definition set_g_fileHookTrampoline (x : Z) (w : World) : World :=
  mkWorld (mem w) (pages w) (allocs w) (va_supply w) (trace w)
    (g_mutexOriginalBytes w) (g_fileOriginalBytes w) (g_hooksInstalled w)
    x (g_originalOpenDataFile w).
Definition set_g_originalOpenDataFile (x : Z) (w : World) : World :=
  mkWorld (mem w) (pages w) (allocs w) (va_supply w) (trace w)
    (g_mutexOriginalBytes w) (g_fileOriginalBytes w) (g_hooksInstalled w)
    (g_fileHookTrampoline w) x.

(** What a debugger attached to the host could read at [a]: the byte, when
    the page is committed. *)
Definition peek (w : World) (a : Z) : option Z :=
  match pages w !! page_of a with
  | Some _ => Some (mem w a)
  | None => None
  end.

(** ** The monad: a computation runs on a world and either returns, or the
    host takes an access violation at some address. *)

Inductive Outcome (A : Type) : Type :=
  | Ret (a : A) (w : World)
  | Fault (addr : Z).
Arguments Ret {A} a w.
Arguments Fault {A} addr.

Definition M (A : Type) : Type := World -> Outcome A.

Definition ret {A : Type} (a : A) : M A := fun w => Ret a w.

Definition bind {A B : Type} (m : M A) (k : A -> M B) : M B :=
  fun w =>
    match m w with
    | Ret a w' => k a w'
    | Fault x => Fault x
    end.

#[global] Instance M_ret : MRet M := @ret.
#[global] Instance M_bind : MBind M := fun A B k m => bind m k.

Definition get {A : Type} (f : World -> A) : M A := fun w => Ret (f w) w.
Definition modify (f : World -> World) : M unit := fun w => Ret tt (f w).

(** ** The Win32 calls *)

Definition committed (w : World) (p : Z) : bool :=
  match pages w !! p with Some _ => true | None => false end.

(** [VirtualProtect(addr, size, newProt, &old)]: fails unless every page of
    the region is committed; on success every page of the region gets
    [newProt] and the old protection of the first page is returned. *)
Definition VirtualProtect (addr size newProt : Z) : M (option Z) :=
  fun w =>
    let ps := region_pages addr size in
    if forallb (committed w) ps then
      Ret (Some (default 0 (pages w !! page_of addr)))
          (add_event (EvProtect addr size newProt true)
             (set_pages (foldr (fun p m => <[p := newProt]> m) (pages w) ps) w))
    else
      Ret None (add_event (EvProtect addr size newProt false) w).

(** [VirtualAlloc(NULL, size, MEM_COMMIT | MEM_RESERVE, prot)]: the system
    picks the base. It returns NULL when it has nothing to offer, and a
    base it does return is aligned to the allocation granularity, lies in
    the 32-bit address space and covers only pages that were free; the new
    pages are zero-filled. *)
Definition valid_base (w : World) (r size : Z) : bool :=
  (0 <? r) && (r + size <=? 2 ^ 32) && (r mod ALLOCATION_GRANULARITY =? 0)
  && forallb (fun p => negb (committed w p)) (region_pages r size)
  && match allocs w !! r with Some _ => false | None => true end.

Definition VirtualAlloc (size prot : Z) : M Z :=
  fun w =>
    match va_supply w with
    | [] => Ret NULL (add_event (EvAlloc size NULL) w)
    | r :: rest =>
        if valid_base w r size then
          let ps := region_pages r size in
          Ret r
            (add_event (EvAlloc size r)
               (set_allocs (<[r := size]> (allocs w))
                  (set_mem (zero_range (mem w) r (PAGE_SIZE * Z.of_nat (length ps)))
                     (set_pages (foldr (fun p m => <[p := prot]> m) (pages w) ps)
                        (set_va_supply rest w)))))
        else
          Ret NULL (add_event (EvAlloc size NULL) (set_va_supply rest w))
    end.

(** [VirtualFree(p, 0, MEM_RELEASE)]: releases the whole block when [p] is
    the base of a live block, and fails (returns FALSE) otherwise. *)
Definition VirtualFree (p : Z) : M bool :=
  fun w =>
    match allocs w !! p with
    | Some size =>
        Ret true
          (add_event (EvFree p true)
             (set_allocs (delete p (allocs w))
                (set_pages (foldr (fun q m => delete q m) (pages w) (region_pages p size)) w)))
    | None => Ret false (add_event (EvFree p false) w)
    end.

(** ** Loads and stores of the program into host memory *)

Definition can_read (w : World) (addr size : Z) : bool :=
  forallb (fun p => match pages w !! p with Some pr => prot_readable pr | None => false end)
    (region_pages addr size).

Definition can_write (w : World) (addr size : Z) : bool :=
  forallb (fun p => match pages w !! p with Some pr => prot_writable pr | None => false end)
    (region_pages addr size).

(** [memcpy(buf, src, n)] with [src] in host memory. *)
Definition memcpy_from (src : Z) (n : nat) : M (list Z) :=
  fun w =>
    if can_read w src (Z.of_nat n) then Ret (load_bytes (mem w) src n) w
    else Fault src.

(** [memcpy(dst, buf, n)] with [dst] in host memory; [buf] is an array of the
    DLL, read as exactly [n] bytes. *)
Definition memcpy_to (dst : Z) (buf : list Z) (n : nat) : M unit :=
  fun w =>
    if can_write w dst (Z.of_nat n) then
      Ret tt (add_event (EvStore dst (resize n 0 buf))
                (set_mem (store_bytes (mem w) dst (resize n 0 buf)) w))
    else Fault dst.

(** [p[0] = b] *)
Definition store_byte (p b : Z) : M unit := memcpy_to p [b] 1.

(** ** The functions of dllmain.cpp *)

Section Hooks.

(** The address of the replacement function [OpenDataFile_Hook] in the
    loaded DLL, fixed by the loader. *)
Variable OpenDataFile_Hook : Z.

Definition patchBytes : list Z :=
  [0x31; 0xC0;     (* xor eax, eax *)
   0xC3].          (* ret *)

Definition InstallMutexHook : M bool :=
  let hookAddr := CLIENT_ISALREADYRUNNING_ADDR in
  (* Make the memory writable *)
  r ← VirtualProtect hookAddr 16 PAGE_EXECUTE_READWRITE;
  match r with
  | None => ret false
  | Some oldProtect =>
      (* Save original bytes *)
      saved ← memcpy_from hookAddr 16;
      modify (set_g_mutexOriginalBytes saved) ;;
      (* Apply the patch *)
      memcpy_to hookAddr patchBytes 3 ;;
      (* Restore original memory protection *)
      VirtualProtect hookAddr 16 oldProtect ;;
      ret true
  end.

(** The two displacement computations of InstallFileHook, as written there. *)
Definition jumpOffset (hookAddr trampolineJump : Z) : Z :=
  sub32 (add32 (wrap32 hookAddr) 5) (add32 (wrap32 trampolineJump) 5).

Definition hookOffset (hook hookAddr : Z) : Z :=
  sub32 (wrap32 hook) (add32 (wrap32 hookAddr) 5).

Definition InstallFileHook : M bool :=
  let hookAddr := CLBLOCKALLOCATOR_OPENDATAFILE_ADDR in
  (* Allocate memory for trampoline (original code + jump back) *)
  t ← VirtualAlloc 32 PAGE_EXECUTE_READWRITE;
  modify (set_g_fileHookTrampoline t) ;;
  if t =? NULL then ret false
  else
    (* Make the target memory writable *)
    r ← VirtualProtect hookAddr 32 PAGE_EXECUTE_READWRITE;
    match r with
    | None =>
        g ← get (fun w => g_fileHookTrampoline w);
        VirtualFree g ;;
        modify (set_g_fileHookTrampoline NULL) ;;
        ret false
    | Some oldProtect =>
        (* Save original bytes *)
        saved ← memcpy_from hookAddr 32;
        modify (set_g_fileOriginalBytes saved) ;;
        (* Copy first 5 bytes of original function to trampoline *)
        g ← get (fun w => g_fileHookTrampoline w);
        prefix ← memcpy_from hookAddr 5;
        memcpy_to g prefix 5 ;;
        (* Add jump back to original function (after our hook) *)
        let trampolineJump := g + 5 in
        store_byte trampolineJump 0xE9 ;;
        memcpy_to (trampolineJump + 1) (le32 (jumpOffset hookAddr trampolineJump)) 4 ;;
        (* Set the original function pointer to our trampoline *)
        modify (set_g_originalOpenDataFile g) ;;
        (* Write jump to our hook at the original location *)
        let jumpToHook := 0xE9 :: le32 (hookOffset OpenDataFile_Hook hookAddr) in
        memcpy_to hookAddr jumpToHook 5 ;;
        (* Restore original memory protection *)
        VirtualProtect hookAddr 32 oldProtect ;;
        ret true
    end.

Definition InstallAllHooks : M bool :=
  a ← InstallMutexHook;
  if negb a then ret false
  else
    b ← InstallFileHook;
    if negb b then ret false
    else
      modify (set_g_hooksInstalled true) ;;
      ret true.

Definition RemoveAllHooks : M unit :=
  installed ← get (fun w => g_hooksInstalled w);
  if negb installed then ret tt
  else
    (* Restore mutex hook *)
    let mutexAddr := CLIENT_ISALREADYRUNNING_ADDR in
    r ← VirtualProtect mutexAddr 16 PAGE_EXECUTE_READWRITE;
    match r with
    | Some oldProtect =>
        saved ← get (fun w => g_mutexOriginalBytes w);
        memcpy_to mutexAddr saved 16 ;;
        VirtualProtect mutexAddr 16 oldProtect ;;
        ret tt
    | None => ret tt
    end ;;
    (* Restore file hook *)
    let fileAddr := CLBLOCKALLOCATOR_OPENDATAFILE_ADDR in
    r ← VirtualProtect fileAddr 32 PAGE_EXECUTE_READWRITE;
    match r with
    | Some oldProtect =>
        saved ← get (fun w => g_fileOriginalBytes w);
        memcpy_to fileAddr saved 32 ;;
        VirtualProtect fileAddr 32 oldProtect ;;
        ret tt
    | None => ret tt
    end ;;
    (* Free trampoline *)
    g ← get (fun w => g_fileHookTrampoline w);
    (if g =? NULL then ret tt
     else
       VirtualFree g ;;
       modify (set_g_fileHookTrampoline NULL)) ;;
    modify (set_g_hooksInstalled false).

(** [DisableThreadLibraryCalls] changes nothing the patches depend on. *)
Definition DisableThreadLibraryCalls (hModule : Z) : M unit := ret tt.

Definition DllMain (hModule ul_reason_for_call lpReserved : Z) : M bool :=
  (if ul_reason_for_call =? DLL_PROCESS_ATTACH then
     (* Hooks are installed by HookStartup() export, not here *)
     DisableThreadLibraryCalls hModule
   else if ul_reason_for_call =? DLL_PROCESS_DETACH then
     (* Clean up hooks on unload *)
     RemoveAllHooks
   else ret tt : M unit) ;;
  ret true.

Definition HookStartup : M Z :=
  ok ← InstallAllHooks;
  if (ok : bool) then ret 1 (* Success *)
  else ret 0 (* Failure *).

End Hooks.

(** ** A concrete host for running the functions *)

Definition demo_mem : Memory :=
  fun a =>
    if a =? CLIENT_ISALREADYRUNNING_ADDR then 0x55
    else if a =? CLIENT_ISALREADYRUNNING_ADDR + 1 then 0x8B
    else if a =? CLIENT_ISALREADYRUNNING_ADDR + 2 then 0xEC
    else if a =? CLBLOCKALLOCATOR_OPENDATAFILE_ADDR then 0x6A
    else if a =? CLBLOCKALLOCATOR_OPENDATAFILE_ADDR + 1 then 0xFF
    else a mod 251.

Definition fresh_globals (m : Memory) (pg : gmap Z Z) (supply : list Z) : World :=
  mkWorld m pg empty supply [] (replicate 16 0) (replicate 32 0) false NULL NULL.

(** Both targets mapped execute-read; the system offers block 0x00A50000. *)
Definition demo_world : World :=
  fresh_globals demo_mem
    (<[page_of CLIENT_ISALREADYRUNNING_ADDR := PAGE_EXECUTE_READ]>
       (<[page_of CLBLOCKALLOCATOR_OPENDATAFILE_ADDR := PAGE_EXECUTE_READ]> empty))
    [0x00A50000].

Definition demo_hook : Z := 0x10001430.

(** ** Worlds reached by the functions, named for the statements below *)

(** The page of each target. *)
Definition MUTEX_PAGE : Z := page_of CLIENT_ISALREADYRUNNING_ADDR.

Definition FILE_PAGE : Z := page_of CLBLOCKALLOCATOR_OPENDATAFILE_ADDR.

(** The world the mutex patch leaves when the target page is committed. *)
Definition mutex_patched (old : Z) (w : World) : World :=
  mkWorld (store_bytes (mem w) CLIENT_ISALREADYRUNNING_ADDR patchBytes)
    (pages w) (allocs w) (va_supply w)
    (trace w ++
       [EvProtect CLIENT_ISALREADYRUNNING_ADDR 16 PAGE_EXECUTE_READWRITE true;
        EvStore CLIENT_ISALREADYRUNNING_ADDR patchBytes;
        EvProtect CLIENT_ISALREADYRUNNING_ADDR 16 old true])
    (load_bytes (mem w) CLIENT_ISALREADYRUNNING_ADDR 16)
    (g_fileOriginalBytes w) (g_hooksInstalled w)
    (g_fileHookTrampoline w) (g_originalOpenDataFile w).

(** Host memory once the trampoline at [r] is filled in. *)
Definition trampoline_mem (m : Memory) (r : Z) : Memory :=
  store_bytes
    (store_bytes
       (store_bytes (zero_range m r PAGE_SIZE) r
          (load_bytes m CLBLOCKALLOCATOR_OPENDATAFILE_ADDR 5))
       (r + 5) [0xE9])
    (r + 5 + 1) (le32 (jumpOffset CLBLOCKALLOCATOR_OPENDATAFILE_ADDR (r + 5))).

(** The world the file hook leaves when the system grants block [r] and the
    target page is committed with protection [old]. *)
Definition file_patched (hook old r : Z) (rest : list Z) (w : World) : World :=
  mkWorld
    (store_bytes (trampoline_mem (mem w) r) CLBLOCKALLOCATOR_OPENDATAFILE_ADDR
       (0xE9 :: le32 (hookOffset hook CLBLOCKALLOCATOR_OPENDATAFILE_ADDR)))
    (<[page_of r := PAGE_EXECUTE_READWRITE]> (pages w))
    (<[r := 32]> (allocs w))
    rest
    (trace w ++
       [EvAlloc 32 r;
        EvProtect CLBLOCKALLOCATOR_OPENDATAFILE_ADDR 32 PAGE_EXECUTE_READWRITE true;
        EvStore r (load_bytes (mem w) CLBLOCKALLOCATOR_OPENDATAFILE_ADDR 5);
        EvStore (r + 5) [0xE9];
        EvStore (r + 5 + 1) (le32 (jumpOffset CLBLOCKALLOCATOR_OPENDATAFILE_ADDR (r + 5)));
        EvStore CLBLOCKALLOCATOR_OPENDATAFILE_ADDR
          (0xE9 :: le32 (hookOffset hook CLBLOCKALLOCATOR_OPENDATAFILE_ADDR));
        EvProtect CLBLOCKALLOCATOR_OPENDATAFILE_ADDR 32 old true])
    (g_mutexOriginalBytes w)
    (load_bytes (mem w) CLBLOCKALLOCATOR_OPENDATAFILE_ADDR 32)
    (g_hooksInstalled w) r r.

(** The world it leaves when block [r] was granted but the target page is
    not committed: the block is released again. *)
Definition file_denied (r : Z) (rest : list Z) (w : World) : World :=
  mkWorld (zero_range (mem w) r PAGE_SIZE) (pages w) (allocs w) rest
    (trace w ++
       [EvAlloc 32 r;
        EvProtect CLBLOCKALLOCATOR_OPENDATAFILE_ADDR 32 PAGE_EXECUTE_READWRITE false;
        EvFree r true])
    (g_mutexOriginalBytes w) (g_fileOriginalBytes w) (g_hooksInstalled w)
    NULL (g_originalOpenDataFile w).

(** The world it leaves when VirtualAlloc returns NULL. *)
Definition file_noalloc (w : World) : World :=
  mkWorld (mem w) (pages w) (allocs w) (tail (va_supply w))
    (trace w ++ [EvAlloc 32 NULL])
    (g_mutexOriginalBytes w) (g_fileOriginalBytes w) (g_hooksInstalled w)
    NULL (g_originalOpenDataFile w).

(** Whether the next VirtualAlloc of 32 bytes succeeds, and with which base. *)
Definition next_block (w : World) : option Z :=
  match va_supply w with
  | r :: _ => if valid_base w r 32 then Some r else None
  | [] => None
  end.

(** One restore block of RemoveAllHooks: the window is rewritten from the
    saved bytes when its page is committed, and skipped otherwise. *)
Definition reverted (addr size : Z) (snap : list Z) (w : World) : World :=
  match pages w !! page_of addr with
  | Some old =>
      mkWorld (store_bytes (mem w) addr (resize (Z.to_nat size) 0 snap))
        (pages w) (allocs w) (va_supply w)
        (trace w ++
           [EvProtect addr size PAGE_EXECUTE_READWRITE true;
            EvStore addr (resize (Z.to_nat size) 0 snap);
            EvProtect addr size old true])
        (g_mutexOriginalBytes w) (g_fileOriginalBytes w) (g_hooksInstalled w)
        (g_fileHookTrampoline w) (g_originalOpenDataFile w)
  | None =>
      add_event (EvProtect addr size PAGE_EXECUTE_READWRITE false) w
  end.

(** The block of RemoveAllHooks that frees the trampoline. *)
Definition released (w : World) : World :=
  let g := g_fileHookTrampoline w in
  if g =? NULL then w
  else
    match allocs w !! g with
    | Some size =>
        mkWorld (mem w)
          (foldr (fun q m => delete q m) (pages w) (region_pages g size))
          (delete g (allocs w)) (va_supply w)
          (trace w ++ [EvFree g true])
          (g_mutexOriginalBytes w) (g_fileOriginalBytes w) (g_hooksInstalled w)
          NULL (g_originalOpenDataFile w)
    | None =>
        mkWorld (mem w) (pages w) (allocs w) (va_supply w)
          (trace w ++ [EvFree g false])
          (g_mutexOriginalBytes w) (g_fileOriginalBytes w) (g_hooksInstalled w)
          NULL (g_originalOpenDataFile w)
    end.

(** The world RemoveAllHooks leaves when the flag is set. *)
Definition removed (w : World) : World :=
  set_g_hooksInstalled false
    (released
       (reverted CLBLOCKALLOCATOR_OPENDATAFILE_ADDR 32 (g_fileOriginalBytes w)
          (reverted CLIENT_ISALREADYRUNNING_ADDR 16 (g_mutexOriginalBytes w) w))).

(** The world after a complete install from [w]. *)
Definition installed_world (hook old1 old2 r : Z) (w : World) : World :=
  set_g_hooksInstalled true
    (file_patched hook old2 r (tail (va_supply w)) (mutex_patched old1 w)).

(** The world after a complete install from [w] and one RemoveAllHooks. *)
Definition uninstalled_world (hook old1 old2 r : Z) (w : World) : World :=
  let wi := installed_world hook old1 old2 r w in
  mkWorld
    (store_bytes
       (store_bytes (mem wi) CLIENT_ISALREADYRUNNING_ADDR
          (load_bytes (mem w) CLIENT_ISALREADYRUNNING_ADDR 16))
       CLBLOCKALLOCATOR_OPENDATAFILE_ADDR
       (load_bytes (mem w) CLBLOCKALLOCATOR_OPENDATAFILE_ADDR 32))
    (pages w) (allocs w) (tail (va_supply w))
    (trace wi ++
       [EvProtect CLIENT_ISALREADYRUNNING_ADDR 16 PAGE_EXECUTE_READWRITE true;
        EvStore CLIENT_ISALREADYRUNNING_ADDR
          (load_bytes (mem w) CLIENT_ISALREADYRUNNING_ADDR 16);
        EvProtect CLIENT_ISALREADYRUNNING_ADDR 16 old1 true;
        EvProtect CLBLOCKALLOCATOR_OPENDATAFILE_ADDR 32 PAGE_EXECUTE_READWRITE true;
        EvStore CLBLOCKALLOCATOR_OPENDATAFILE_ADDR
          (load_bytes (mem w) CLBLOCKALLOCATOR_OPENDATAFILE_ADDR 32);
        EvProtect CLBLOCKALLOCATOR_OPENDATAFILE_ADDR 32 old2 true;
        EvFree r true])
    (load_bytes (mem w) CLIENT_ISALREADYRUNNING_ADDR 16)
    (load_bytes (mem w) CLBLOCKALLOCATOR_OPENDATAFILE_ADDR 32)
    false NULL r.

(** The same host with the file target not committed. *)
Definition demo_world_nofile : World :=
  fresh_globals demo_mem
    (<[page_of CLIENT_ISALREADYRUNNING_ADDR := PAGE_EXECUTE_READ]> empty)
    [0x00A50000].

(** The addresses stored to, in the order of the stores. *)
Definition store_addr (e : Event) : option Z :=
  match e with
  | EvStore a _ => Some a
  | _ => None
  end.

Definition store_order (evs : list Event) : list Z := omap store_addr evs.

(** Every page committed both before and after has kept its protection. *)
Definition protections_kept (w w' : World) : Prop :=
  forall p a b, pages w !! p = Some a -> pages w' !! p = Some b -> a = b.

(** The host after the mutex patch went in and the file hook was refused. *)
Definition partial_world : World :=
  file_denied 0x00A50000 [] (mutex_patched PAGE_EXECUTE_READ demo_world_nofile).

(** The host after a complete install, and after the uninstall that follows. *)
Definition demo_installed : World :=
  installed_world demo_hook PAGE_EXECUTE_READ PAGE_EXECUTE_READ 0x00A50000 demo_world.

Definition demo_uninstalled : World :=
  uninstalled_world demo_hook PAGE_EXECUTE_READ PAGE_EXECUTE_READ 0x00A50000 demo_world.

(** ** The replacement function

    [OpenDataFile_Hook] of the source. The six arguments are machine words;
    the function ends either by calling host code through
    [g_originalOpenDataFile] and returning what that call returns, or by
    returning 0 itself. (In Section Hooks the name OpenDataFile_Hook stands
    for the address of this function; its body is named apart here.) *)

Inductive HookExit : Type :=
  | CallOriginal (target thisPtr pFileInfo pFileName pcPathToUse openFlags pTranInfo : Z)
  | ReturnValue (v : Z).

Definition OpenDataFile_Hook_body
    (thisPtr unused_edx pFileInfo pFileName pcPathToUse openFlags pTranInfo : Z)
    : M HookExit :=
  (* Add FILE_SHARE_READ flag (0x4) to the open flags *)
  let openFlags := Z.lor openFlags 0x4 in
  (* Call the original function with modified flags *)
  original ← get (fun w => g_originalOpenDataFile w);
  if negb (original =? NULL) then
    ret (CallOriginal original thisPtr pFileInfo pFileName pcPathToUse openFlags pTranInfo)
  else ret (ReturnValue 0).

(** Where the x86 instruction [E9 rel32] found at [a] transfers control:
    the address after its five bytes plus the little-endian displacement. *)
Definition jmp_target (m : Memory) (a : Z) : option Z :=
  if m a =? 0xE9 then Some (add32 (add32 a 5) (of_le32 (load_bytes m (a + 1) 4)))
  else None.

(** The concrete host with two blocks on offer, for a second install. *)
Definition demo_world_two : World :=
  fresh_globals demo_mem
    (<[page_of CLIENT_ISALREADYRUNNING_ADDR := PAGE_EXECUTE_READ]>
       (<[page_of CLBLOCKALLOCATOR_OPENDATAFILE_ADDR := PAGE_EXECUTE_READ]> empty))
    [0x00A50000; 0x00A60000].

(** That host after its first install, and after the uninstall. *)
Definition demo_installed_two : World :=
  installed_world demo_hook PAGE_EXECUTE_READ PAGE_EXECUTE_READ 0x00A50000 demo_world_two.

Definition demo_uninstalled_two : World :=
  uninstalled_world demo_hook PAGE_EXECUTE_READ PAGE_EXECUTE_READ 0x00A50000 demo_world_two.

(** The concrete host with only the file target committed. *)
Definition demo_world_nomutex : World :=
  fresh_globals demo_mem
    (<[page_of CLBLOCKALLOCATOR_OPENDATAFILE_ADDR := PAGE_EXECUTE_READ]> empty)
    [0x00A50000].

(** The concrete host where the system has no block to offer. *)
Definition demo_world_noblock : World :=
  fresh_globals demo_mem
    (<[page_of CLIENT_ISALREADYRUNNING_ADDR := PAGE_EXECUTE_READ]>
       (<[page_of CLBLOCKALLOCATOR_OPENDATAFILE_ADDR := PAGE_EXECUTE_READ]> empty))
    [].

(** * Properties *)

(** ** Words *)

Lemma wrap32_range x : 0 <= wrap32 x < 2 ^ 32.
Proof. unfold wrap32. apply Z.mod_pos_bound. lia. Qed.

Lemma wrap32_small x : 0 <= x < 2 ^ 32 -> wrap32 x = x.
Proof. intros H. unfold wrap32. apply Z.mod_small. exact H. Qed.

Lemma wrap32_idemp x : wrap32 (wrap32 x) = wrap32 x.
Proof. apply wrap32_small, wrap32_range. Qed.

Lemma add32_sub32 a d : add32 a (sub32 d a) = wrap32 d.
Proof.
  unfold add32, sub32, wrap32.
  rewrite Zplus_mod_idemp_r. f_equal. lia.
Qed.

Lemma add32_wrap_l a b : add32 (wrap32 a) b = add32 a b.
Proof. unfold add32, wrap32. apply Zplus_mod_idemp_l. Qed.

Lemma signed32_congr x : 0 <= x < 2 ^ 32 -> wrap32 (signed32 x) = x.
Proof.
  intros H. unfold signed32. destruct (x <? 2 ^ 31).
  - apply wrap32_small. exact H.
  - unfold wrap32. replace (x - 2 ^ 32) with (x + (-1) * 2 ^ 32) by lia.
    rewrite Z_mod_plus_full. apply Z.mod_small. exact H.
Qed.

Lemma signed32_range x : 0 <= x < 2 ^ 32 -> - 2 ^ 31 <= signed32 x < 2 ^ 31.
Proof.
  intros H. unfold signed32.
  change (2 ^ 32) with 4294967296 in *. change (2 ^ 31) with 2147483648 in *.
  destruct (Z.ltb_spec x 2147483648); split; lia.
Qed.

Lemma testbit_above32 x n : 0 <= x < 2 ^ 32 -> 32 <= n -> Z.testbit x n = false.
Proof.
  intros H Hn. destruct (Z.eq_dec x 0) as [->|Hx]; [apply Z.bits_0|].
  apply Z.bits_above_log2; [lia|].
  assert (Z.log2 x < 32); [|lia]. apply Z.log2_lt_pow2; lia.
Qed.

Lemma of_le32_le32 x : 0 <= x < 2 ^ 32 -> of_le32 (le32 x) = x.
Proof.
  intros H. unfold of_le32, le32.
  apply Z.bits_inj'. intros n Hn.
  rewrite !Z.lor_spec, !Z.shiftl_spec by lia.
  change 255 with (Z.ones 8).
  destruct (Z_lt_dec n 8) as [H8|H8];
    [| destruct (Z_lt_dec n 16) as [H16|H16];
       [| destruct (Z_lt_dec n 24) as [H24|H24];
          [| destruct (Z_lt_dec n 32) as [H32|H32] ] ] ].
  all: repeat match goal with
       | |- context [Z.testbit (Z.land ?a (Z.ones 8)) ?k] =>
           first [ rewrite (Z.testbit_neg_r (Z.land a (Z.ones 8)) k) by lia
                 | rewrite (Z.land_spec a (Z.ones 8) k) ]
       | |- context [Z.testbit (Z.shiftr ?a ?j) ?k] =>
           rewrite (Z.shiftr_spec a j k) by lia
       | |- context [Z.testbit (Z.ones 8) ?k] =>
           first [ rewrite (Z.ones_spec_low 8 k) by lia
                 | rewrite (Z.ones_spec_high 8 k) by lia ]
       end.
  all: rewrite ?andb_true_r, ?andb_false_r, ?orb_false_r, ?orb_false_l.
  all: try (f_equal; lia).
  symmetry. apply testbit_above32; [exact H | lia].
Qed.

(** ** Memory *)

Lemma length_load_bytes m a n : length (load_bytes m a n) = n.
Proof. revert a. induction n as [|n IH]; intros a; simpl; [reflexivity|]. now rewrite IH. Qed.

Lemma load_bytes_ext m1 m2 a n :
  (forall x, a <= x < a + Z.of_nat n -> m1 x = m2 x) ->
  load_bytes m1 a n = load_bytes m2 a n.
Proof.
  revert a. induction n as [|n IH]; intros a H; simpl; [reflexivity|].
  rewrite (H a) by lia. f_equal. apply IH. intros x Hx. apply H. lia.
Qed.

Lemma load_bytes_app m a n k :
  load_bytes m a (n + k) = load_bytes m a n ++ load_bytes m (a + Z.of_nat n) k.
Proof.
  revert a. induction n as [|n IH]; intros a.
  - simpl. now rewrite Z.add_0_r.
  - simpl load_bytes at 1 2. simpl app. rewrite IH. do 3 f_equal. lia.
Qed.

Lemma load_bytes_lookup m a n (i : nat) :
  (i < n)%nat -> load_bytes m a n !! i = Some (m (a + Z.of_nat i)).
Proof.
  revert a i. induction n as [|n IH]; intros a i Hi; [lia|].
  destruct i as [|i]; simpl.
  - now rewrite Z.add_0_r.
  - rewrite IH by lia. do 2 f_equal. lia.
Qed.

Lemma store_bytes_outside m a bs x :
  x < a \/ a + Z.of_nat (length bs) <= x -> store_bytes m a bs x = m x.
Proof.
  intros H. unfold store_bytes.
  destruct (Z.leb_spec a x), (Z.ltb_spec x (a + Z.of_nat (length bs))); simpl; try reflexivity; lia.
Qed.

Lemma store_bytes_inside m a bs (i : nat) b :
  bs !! i = Some b -> store_bytes m a bs (a + Z.of_nat i) = b.
Proof.
  intros H. pose proof (lookup_lt_Some _ _ _ H) as Hlt. unfold store_bytes.
  destruct (Z.leb_spec a (a + Z.of_nat i)); [|lia].
  destruct (Z.ltb_spec (a + Z.of_nat i) (a + Z.of_nat (length bs))); [|lia].
  simpl. replace (a + Z.of_nat i - a) with (Z.of_nat i) by lia.
  rewrite Nat2Z.id. apply nth_lookup_Some with (d := 0) in H. exact H.
Qed.

(** Reading back the window just written. *)
Lemma load_store_same m a bs :
  load_bytes (store_bytes m a bs) a (length bs) = bs.
Proof.
  apply list_eq. intros i.
  destruct (decide (i < length bs)%nat) as [Hi|Hi].
  - rewrite load_bytes_lookup by exact Hi.
    destruct (lookup_lt_is_Some_2 bs i Hi) as [b Hb].
    rewrite Hb. f_equal. apply store_bytes_inside. exact Hb.
  - rewrite !lookup_ge_None_2; [reflexivity | lia | rewrite length_load_bytes; lia].
Qed.

(** A store leaves every window it does not overlap as it was. *)
Lemma load_store_disjoint m a bs b n :
  b + Z.of_nat n <= a \/ a + Z.of_nat (length bs) <= b ->
  load_bytes (store_bytes m a bs) b n = load_bytes m b n.
Proof.
  intros H. apply load_bytes_ext. intros x Hx. apply store_bytes_outside. lia.
Qed.

Lemma load_zero_disjoint m a size b n :
  b + Z.of_nat n <= a \/ a + size <= b ->
  load_bytes (zero_range m a size) b n = load_bytes m b n.
Proof.
  intros H. apply load_bytes_ext. intros x Hx. unfold zero_range.
  destruct (Z.leb_spec a x), (Z.ltb_spec x (a + size)); simpl; try reflexivity; lia.
Qed.

(** A short store at the start of a longer window: the written bytes, then
    the rest of the window untouched. *)
Lemma load_store_prefix m a bs n :
  (length bs <= n)%nat ->
  load_bytes (store_bytes m a bs) a n =
  bs ++ load_bytes m (a + Z.of_nat (length bs)) (n - length bs).
Proof.
  intros H. replace n with (length bs + (n - length bs))%nat at 1 by lia.
  rewrite load_bytes_app, load_store_same. f_equal.
  apply load_store_disjoint. lia.
Qed.

(** ** Pages *)

Lemma region_pages_one a size :
  page_of (a + size - 1) = page_of a -> region_pages a size = [page_of a].
Proof.
  intros H. unfold region_pages. rewrite H, Z.sub_diag. reflexivity.
Qed.

(** Both target windows, and every window used inside them, lie in one page. *)
Lemma mutex_pages_16 : region_pages CLIENT_ISALREADYRUNNING_ADDR 16 = [MUTEX_PAGE].
Proof. reflexivity. Qed.
Lemma mutex_pages_3 : region_pages CLIENT_ISALREADYRUNNING_ADDR 3 = [MUTEX_PAGE].
Proof. reflexivity. Qed.
Lemma file_pages_32 : region_pages CLBLOCKALLOCATOR_OPENDATAFILE_ADDR 32 = [FILE_PAGE].
Proof. reflexivity. Qed.
Lemma file_pages_5 : region_pages CLBLOCKALLOCATOR_OPENDATAFILE_ADDR 5 = [FILE_PAGE].
Proof. reflexivity. Qed.

(** A block base aligned to the allocation granularity: every window inside
    its first page lies in that page. *)
Lemma block_pages r off size :
  r mod ALLOCATION_GRANULARITY = 0 -> 0 <= off -> 0 < size -> off + size <= PAGE_SIZE ->
  region_pages (r + off) size = [page_of r].
Proof.
  intros Hr Hoff Hs Hle.
  assert (Hp : forall d, 0 <= d < PAGE_SIZE -> page_of (r + d) = page_of r).
  { intros d Hd. unfold page_of, PAGE_SIZE, ALLOCATION_GRANULARITY in *.
    Z.div_mod_to_equations. lia. }
  rewrite region_pages_one; rewrite !Hp; try reflexivity; try lia.
  replace (r + off + size - 1) with (r + (off + size - 1)) by lia.
  rewrite Hp by lia. reflexivity.
Qed.

Lemma block_pages_base r size :
  r mod ALLOCATION_GRANULARITY = 0 -> 0 < size <= PAGE_SIZE ->
  region_pages r size = [page_of r].
Proof.
  intros Hr Hs. replace r with (r + 0) at 1 by lia.
  apply block_pages; [exact Hr | lia ..].
Qed.

Lemma block_page_not_target r :
  r mod ALLOCATION_GRANULARITY = 0 -> page_of r <> MUTEX_PAGE /\ page_of r <> FILE_PAGE.
Proof.
  intros Hr.
  change MUTEX_PAGE with 1042. change FILE_PAGE with 1653.
  unfold page_of, PAGE_SIZE, ALLOCATION_GRANULARITY in *.
  Z.div_mod_to_equations. lia.
Qed.

(** ** Running the monad *)

Lemma run_bind {A B : Type} (m : M A) (k : A -> M B) (w : World) :
  (m ≫= k) w = match m w with Ret a w' => k a w' | Fault x => Fault x end.
Proof. reflexivity. Qed.

Lemma run_get {A B : Type} (f : World -> A) (k : A -> M B) (w : World) :
  (get f ≫= k) w = k (f w) w.
Proof. reflexivity. Qed.

Lemma run_modify {B : Type} (f : World -> World) (k : unit -> M B) (w : World) :
  (modify f ≫= k) w = k tt (f w).
Proof. reflexivity. Qed.

(** Beta-reduce the getters [get (fun w => g w)] once they are applied. *)
Ltac proj_norm := cbv beta in *.

Ltac wsimpl :=
  cbv beta iota delta
      [mem pages allocs va_supply trace g_mutexOriginalBytes g_fileOriginalBytes
       g_hooksInstalled g_fileHookTrampoline g_originalOpenDataFile
       set_mem set_pages set_allocs set_va_supply add_event
       set_g_mutexOriginalBytes set_g_fileOriginalBytes set_g_hooksInstalled
       set_g_fileHookTrampoline set_g_originalOpenDataFile] in *.

(** ** The system calls on single-page regions *)

Lemma VirtualProtect_hit a n pr w old :
  region_pages a n = [page_of a] ->
  pages w !! page_of a = Some old ->
  VirtualProtect a n pr w =
  Ret (Some old)
      (add_event (EvProtect a n pr true) (set_pages (<[page_of a := pr]> (pages w)) w)).
Proof.
  intros Hr Hp. unfold VirtualProtect, committed. rewrite Hr. cbn [forallb foldr].
  rewrite Hp. reflexivity.
Qed.

Lemma VirtualProtect_miss a n pr w :
  region_pages a n = [page_of a] ->
  pages w !! page_of a = None ->
  VirtualProtect a n pr w = Ret None (add_event (EvProtect a n pr false) w).
Proof.
  intros Hr Hp. unfold VirtualProtect, committed. rewrite Hr. cbn [forallb].
  rewrite Hp. reflexivity.
Qed.

Lemma memcpy_from_hit src n w p pr :
  region_pages src (Z.of_nat n) = [p] ->
  pages w !! p = Some pr -> prot_readable pr = true ->
  memcpy_from src n w = Ret (load_bytes (mem w) src n) w.
Proof.
  intros Hr Hp Hpr. unfold memcpy_from, can_read. rewrite Hr. cbn [forallb].
  rewrite Hp, Hpr. reflexivity.
Qed.

Lemma memcpy_to_hit dst buf n w p pr :
  region_pages dst (Z.of_nat n) = [p] ->
  pages w !! p = Some pr -> prot_writable pr = true ->
  memcpy_to dst buf n w =
  Ret tt (add_event (EvStore dst (resize n 0 buf))
            (set_mem (store_bytes (mem w) dst (resize n 0 buf)) w)).
Proof.
  intros Hr Hp Hpr. unfold memcpy_to, can_write. rewrite Hr. cbn [forallb].
  rewrite Hp, Hpr. reflexivity.
Qed.

Lemma valid_base_inv w r :
  valid_base w r 32 = true ->
  0 < r /\ r + 32 <= 2 ^ 32 /\ r mod ALLOCATION_GRANULARITY = 0 /\
  pages w !! page_of r = None /\ allocs w !! r = None /\
  region_pages r 32 = [page_of r].
Proof.
  unfold valid_base. intros H.
  apply andb_prop in H as [H Ha]. apply andb_prop in H as [H Hf].
  apply andb_prop in H as [H Hm]. apply andb_prop in H as [H0 Hle].
  apply Z.ltb_lt in H0. apply Z.leb_le in Hle. apply Z.eqb_eq in Hm.
  assert (Hr : region_pages r 32 = [page_of r]).
  { apply block_pages_base; [exact Hm | unfold PAGE_SIZE; lia]. }
  rewrite Hr in Hf. cbn [forallb] in Hf. unfold committed in Hf.
  repeat split; try assumption.
  - destruct (pages w !! page_of r); [discriminate | reflexivity].
  - destruct (allocs w !! r); [discriminate | reflexivity].
Qed.

Lemma VirtualAlloc_hit w r rest pr :
  va_supply w = r :: rest -> valid_base w r 32 = true ->
  VirtualAlloc 32 pr w =
  Ret r (add_event (EvAlloc 32 r)
           (set_allocs (<[r := 32]> (allocs w))
              (set_mem (zero_range (mem w) r PAGE_SIZE)
                 (set_pages (<[page_of r := pr]> (pages w))
                    (set_va_supply rest w))))).
Proof.
  intros Hs Hv. unfold VirtualAlloc. rewrite Hs, Hv.
  destruct (valid_base_inv w r Hv) as (_ & _ & _ & _ & _ & Hr).
  rewrite Hr. cbn [foldr length]. rewrite Z.mul_1_r. reflexivity.
Qed.

Lemma VirtualFree_hit w p :
  allocs w !! p = Some 32 -> p mod ALLOCATION_GRANULARITY = 0 ->
  VirtualFree p w =
  Ret true (add_event (EvFree p true)
              (set_allocs (delete p (allocs w))
                 (set_pages (delete (page_of p) (pages w)) w))).
Proof.
  intros Ha Hm. unfold VirtualFree. rewrite Ha.
  rewrite (block_pages_base p 32 Hm) by (unfold PAGE_SIZE; lia).
  reflexivity.
Qed.

(** ** InstallMutexHook *)

Lemma rwx_readable : prot_readable PAGE_EXECUTE_READWRITE = true.
Proof. reflexivity. Qed.
Lemma rwx_writable : prot_writable PAGE_EXECUTE_READWRITE = true.
Proof. reflexivity. Qed.

Lemma trace3 {A : Type} (t : list A) a b c : ((t ++ [a]) ++ [b]) ++ [c] = t ++ [a; b; c].
Proof. now rewrite <- !app_assoc. Qed.

Lemma InstallMutexHook_hit w old :
  pages w !! MUTEX_PAGE = Some old ->
  InstallMutexHook w = Ret true (mutex_patched old w).
Proof.
  intros Hp. unfold InstallMutexHook, mutex_patched. cbv zeta.
  rewrite run_bind, (VirtualProtect_hit _ _ _ _ old mutex_pages_16 Hp). cbv beta iota.
  rewrite run_bind.
  rewrite (memcpy_from_hit _ 16 _ MUTEX_PAGE PAGE_EXECUTE_READWRITE mutex_pages_16);
    [ | wsimpl; apply lookup_insert_eq | apply rwx_readable ].
  cbv beta iota. rewrite run_modify, run_bind.
  rewrite (memcpy_to_hit _ _ 3 _ MUTEX_PAGE PAGE_EXECUTE_READWRITE mutex_pages_3);
    [ | wsimpl; apply lookup_insert_eq | apply rwx_writable ].
  cbv beta iota. rewrite run_bind.
  rewrite (VirtualProtect_hit _ _ _ _ PAGE_EXECUTE_READWRITE mutex_pages_16);
    [ | wsimpl; apply lookup_insert_eq ].
  cbv beta iota. unfold ret. wsimpl.
  rewrite insert_insert_eq, (insert_id _ _ _ Hp), trace3.
  reflexivity.
Qed.

Lemma InstallMutexHook_miss w :
  pages w !! MUTEX_PAGE = None ->
  InstallMutexHook w =
  Ret false (add_event (EvProtect CLIENT_ISALREADYRUNNING_ADDR 16 PAGE_EXECUTE_READWRITE false) w).
Proof.
  intros Hp. unfold InstallMutexHook. cbv zeta.
  rewrite run_bind, (VirtualProtect_miss _ _ _ _ mutex_pages_16 Hp). reflexivity.
Qed.

(** ** InstallFileHook *)

Lemma block_disjoint_file r :
  r mod ALLOCATION_GRANULARITY = 0 ->
  CLBLOCKALLOCATOR_OPENDATAFILE_ADDR + 32 <= r \/ r + PAGE_SIZE <= CLBLOCKALLOCATOR_OPENDATAFILE_ADDR.
Proof.
  unfold CLBLOCKALLOCATOR_OPENDATAFILE_ADDR, ALLOCATION_GRANULARITY, PAGE_SIZE.
  intros Hr. Z.div_mod_to_equations. lia.
Qed.

Lemma block_disjoint_mutex r :
  r mod ALLOCATION_GRANULARITY = 0 ->
  CLIENT_ISALREADYRUNNING_ADDR + 16 <= r \/ r + PAGE_SIZE <= CLIENT_ISALREADYRUNNING_ADDR.
Proof.
  unfold CLIENT_ISALREADYRUNNING_ADDR, ALLOCATION_GRANULARITY, PAGE_SIZE.
  intros Hr. Z.div_mod_to_equations. lia.
Qed.

Lemma next_block_Some w r :
  next_block w = Some r ->
  va_supply w = r :: tail (va_supply w) /\ valid_base w r 32 = true.
Proof.
  unfold next_block. destruct (va_supply w) as [|r' rest]; [discriminate|].
  destruct (valid_base w r' 32) eqn:Hv; [|discriminate].
  intros [= ->]. split; [reflexivity | exact Hv].
Qed.

Section FileHook.

Variable OpenDataFile_Hook : Z.

Lemma InstallFileHook_noalloc w :
  next_block w = None ->
  InstallFileHook OpenDataFile_Hook w = Ret false (file_noalloc w).
Proof.
  unfold next_block, InstallFileHook, file_noalloc. intros Hn. cbv zeta.
  rewrite run_bind. unfold VirtualAlloc.
  destruct (va_supply w) as [|r rest] eqn:E.
  - cbv beta iota. rewrite run_modify. cbn [Z.eqb NULL]. unfold ret. wsimpl.
    rewrite E. reflexivity.
  - destruct (valid_base w r 32); [discriminate|].
    cbv beta iota. rewrite run_modify. cbn [Z.eqb NULL]. unfold ret. wsimpl.
    reflexivity.
Qed.

Lemma InstallFileHook_denied w r :
  next_block w = Some r ->
  pages w !! FILE_PAGE = None ->
  InstallFileHook OpenDataFile_Hook w = Ret false (file_denied r (tail (va_supply w)) w).
Proof.
  intros Hn Hp. apply next_block_Some in Hn as [Hs Hv].
  destruct (valid_base_inv w r Hv) as (H0 & _ & Hm & Hfree & Hna & _).
  destruct (block_page_not_target r Hm) as [_ Hne].
  unfold InstallFileHook, file_denied. cbv zeta.
  rewrite run_bind, (VirtualAlloc_hit w r _ _ Hs Hv). cbv beta iota.
  rewrite run_modify.
  destruct (Z.eqb_spec r NULL) as [E|_]; [unfold NULL in E; lia|].
  rewrite run_bind, (VirtualProtect_miss _ 32 _ _ file_pages_32);
    [ | wsimpl; rewrite lookup_insert_ne by exact Hne; exact Hp ].
  cbv beta iota. rewrite run_get, run_bind.
  rewrite VirtualFree_hit; [ | wsimpl; apply lookup_insert_eq | wsimpl; exact Hm ].
  cbv beta iota. rewrite run_modify. unfold ret. wsimpl.
  rewrite !delete_insert_eq, (delete_id _ _ Hfree), (delete_id _ _ Hna), trace3.
  reflexivity.
Qed.

Lemma InstallFileHook_hit w r old :
  next_block w = Some r ->
  pages w !! FILE_PAGE = Some old ->
  InstallFileHook OpenDataFile_Hook w =
  Ret true (file_patched OpenDataFile_Hook old r (tail (va_supply w)) w).
Proof.
  intros Hn Hp. apply next_block_Some in Hn as [Hs Hv].
  destruct (valid_base_inv w r Hv) as (H0 & _ & Hm & Hfree & Hna & _).
  destruct (block_page_not_target r Hm) as [_ Hne].
  pose proof (block_disjoint_file r Hm) as Hdis.
  assert (Hr5 : region_pages r 5 = [page_of r])
    by (apply block_pages_base; [exact Hm | unfold PAGE_SIZE; lia]).
  assert (Hr1 : region_pages (r + 5) 1 = [page_of r])
    by (apply block_pages; [exact Hm | unfold PAGE_SIZE; lia ..]).
  assert (Hr4 : region_pages (r + 5 + 1) 4 = [page_of r]).
  { replace (r + 5 + 1) with (r + 6) by lia.
    apply block_pages; [exact Hm | unfold PAGE_SIZE; lia ..]. }
  unfold InstallFileHook, file_patched, trampoline_mem. cbv zeta.
  rewrite run_bind, (VirtualAlloc_hit w r _ _ Hs Hv). cbv beta iota.
  rewrite run_modify.
  destruct (Z.eqb_spec r NULL) as [E|_]; [unfold NULL in E; lia|].
  rewrite run_bind, (VirtualProtect_hit _ 32 _ _ old file_pages_32);
    [ | wsimpl; rewrite lookup_insert_ne by exact Hne; exact Hp ].
  cbv beta iota. rewrite run_bind.
  rewrite (memcpy_from_hit _ 32 _ FILE_PAGE PAGE_EXECUTE_READWRITE file_pages_32);
    [ | wsimpl; apply lookup_insert_eq | apply rwx_readable ].
  cbv beta iota. rewrite run_modify, run_get, run_bind.
  rewrite (memcpy_from_hit _ 5 _ FILE_PAGE PAGE_EXECUTE_READWRITE file_pages_5);
    [ | wsimpl; apply lookup_insert_eq | apply rwx_readable ].
  cbv beta iota. wsimpl. rewrite run_bind.
  rewrite (memcpy_to_hit _ _ 5 _ (page_of r) PAGE_EXECUTE_READWRITE Hr5);
    [ | wsimpl; rewrite lookup_insert_ne by (unfold FILE_PAGE in Hne; congruence);
        apply lookup_insert_eq
      | apply rwx_writable ].
  cbv beta iota. rewrite run_bind. unfold store_byte.
  rewrite (memcpy_to_hit _ _ 1 _ (page_of r) PAGE_EXECUTE_READWRITE Hr1);
    [ | wsimpl; rewrite lookup_insert_ne by (unfold FILE_PAGE in Hne; congruence);
        apply lookup_insert_eq
      | apply rwx_writable ].
  cbv beta iota. rewrite run_bind.
  rewrite (memcpy_to_hit _ _ 4 _ (page_of r) PAGE_EXECUTE_READWRITE Hr4);
    [ | wsimpl; rewrite lookup_insert_ne by (unfold FILE_PAGE in Hne; congruence);
        apply lookup_insert_eq
      | apply rwx_writable ].
  cbv beta iota. rewrite run_modify, run_bind.
  rewrite (memcpy_to_hit _ _ 5 _ FILE_PAGE PAGE_EXECUTE_READWRITE file_pages_5);
    [ | wsimpl; apply lookup_insert_eq | apply rwx_writable ].
  cbv beta iota. rewrite run_bind.
  rewrite (VirtualProtect_hit _ 32 _ _ PAGE_EXECUTE_READWRITE file_pages_32);
    [ | wsimpl; apply lookup_insert_eq ].
  cbv beta iota. unfold ret. wsimpl.
  rewrite insert_insert_eq.
  rewrite (insert_id (<[page_of r:=PAGE_EXECUTE_READWRITE]> (pages w)) FILE_PAGE old)
    by (rewrite lookup_insert_ne by exact Hne; exact Hp).
  rewrite !(load_zero_disjoint (mem w) r PAGE_SIZE) by (simpl Z.of_nat; lia).
  rewrite <- !app_assoc. reflexivity.
Qed.

End FileHook.

(** ** RemoveAllHooks *)

Lemma RemoveAllHooks_idle w :
  g_hooksInstalled w = false -> RemoveAllHooks w = Ret tt w.
Proof.
  intros H. unfold RemoveAllHooks. rewrite run_get. proj_norm. rewrite H. reflexivity.
Qed.

Lemma reverted_globals addr size snap w :
  let w' := reverted addr size snap w in
  pages w' = pages w /\ allocs w' = allocs w /\ va_supply w' = va_supply w /\
  g_mutexOriginalBytes w' = g_mutexOriginalBytes w /\
  g_fileOriginalBytes w' = g_fileOriginalBytes w /\
  g_hooksInstalled w' = g_hooksInstalled w /\
  g_fileHookTrampoline w' = g_fileHookTrampoline w /\
  g_originalOpenDataFile w' = g_originalOpenDataFile w.
Proof.
  unfold reverted. destruct (pages w !! page_of addr); cbn; auto 10.
Qed.

(** A restore block, run: the guard acquires, the window is rewritten and the
    guard restores, or the acquisition fails and the block is skipped. *)
Lemma restore_block_run {B : Type} addr size n (snapf : World -> list Z) (k : unit -> M B) w :
  n = Z.to_nat size -> region_pages addr (Z.of_nat n) = [page_of addr] ->
  region_pages addr size = [page_of addr] ->
  (r ← VirtualProtect addr size PAGE_EXECUTE_READWRITE;
   match r with
   | Some oldProtect =>
       saved ← get snapf;
       memcpy_to addr saved n ;;
       VirtualProtect addr size oldProtect ;;
       ret tt
   | None => ret tt
   end ≫= k) w =
  k tt (reverted addr size
          (snapf (add_event (EvProtect addr size PAGE_EXECUTE_READWRITE true)
                    (set_pages (<[page_of addr := PAGE_EXECUTE_READWRITE]> (pages w)) w)))
          w).
Proof.
  intros -> Hrn Hr. unfold reverted.
  destruct (pages w !! page_of addr) as [old|] eqn:Hp.
  - rewrite run_bind, (VirtualProtect_hit _ _ _ _ old Hr Hp). cbv beta iota.
    rewrite run_bind, run_get, run_bind.
    rewrite (memcpy_to_hit _ _ _ _ (page_of addr) PAGE_EXECUTE_READWRITE Hrn);
      [ | wsimpl; apply lookup_insert_eq | apply rwx_writable ].
    cbv beta iota. rewrite run_bind.
    rewrite (VirtualProtect_hit _ _ _ _ PAGE_EXECUTE_READWRITE Hr);
      [ | wsimpl; apply lookup_insert_eq ].
    cbv beta iota. unfold ret. wsimpl.
    rewrite insert_insert_eq, (insert_id _ _ _ Hp), trace3. reflexivity.
  - rewrite run_bind, (VirtualProtect_miss _ _ _ _ Hr Hp). reflexivity.
Qed.

Lemma RemoveAllHooks_installed w :
  g_hooksInstalled w = true -> RemoveAllHooks w = Ret tt (removed w).
Proof.
  intros H. unfold RemoveAllHooks, removed. rewrite run_get. proj_norm. rewrite H.
  cbv zeta. cbn [negb].
  rewrite (restore_block_run CLIENT_ISALREADYRUNNING_ADDR 16 16
             (fun w => g_mutexOriginalBytes w) _ _ eq_refl mutex_pages_16 mutex_pages_16).
  proj_norm.
  change (g_mutexOriginalBytes (add_event ?e (set_pages ?p w)))
    with (g_mutexOriginalBytes w).
  set (w1 := reverted CLIENT_ISALREADYRUNNING_ADDR 16 (g_mutexOriginalBytes w) w).
  rewrite (restore_block_run CLBLOCKALLOCATOR_OPENDATAFILE_ADDR 32 32
             (fun w => g_fileOriginalBytes w) _ _ eq_refl file_pages_32 file_pages_32).
  proj_norm.
  change (g_fileOriginalBytes (add_event ?e (set_pages ?p w1)))
    with (g_fileOriginalBytes w1).
  destruct (reverted_globals CLIENT_ISALREADYRUNNING_ADDR 16 (g_mutexOriginalBytes w) w)
    as (_ & _ & _ & _ & Hf & _).
  cbv zeta in Hf. fold w1 in Hf. rewrite Hf.
  rewrite run_get. unfold released. cbv zeta.
  set (w2 := reverted CLBLOCKALLOCATOR_OPENDATAFILE_ADDR 32 _ _).
  proj_norm.
  destruct (g_fileHookTrampoline w2 =? NULL) eqn:Hg.
  - reflexivity.
  - rewrite run_bind, run_bind. unfold VirtualFree.
    destruct (allocs w2 !! g_fileHookTrampoline w2); reflexivity.
Qed.

(** ** Case analyses of the install functions *)

Lemma InstallMutexHook_cases w :
  (exists old, pages w !! MUTEX_PAGE = Some old /\
               InstallMutexHook w = Ret true (mutex_patched old w)) \/
  (pages w !! MUTEX_PAGE = None /\
   InstallMutexHook w =
   Ret false (add_event (EvProtect CLIENT_ISALREADYRUNNING_ADDR 16 PAGE_EXECUTE_READWRITE false) w)).
Proof.
  destruct (pages w !! MUTEX_PAGE) as [old|] eqn:Hp.
  - left. exists old. split; [reflexivity | apply InstallMutexHook_hit, Hp].
  - right. split; [reflexivity | apply InstallMutexHook_miss, Hp].
Qed.

Lemma InstallFileHook_cases hook w :
  (next_block w = None /\ InstallFileHook hook w = Ret false (file_noalloc w)) \/
  (exists r, next_block w = Some r /\ pages w !! FILE_PAGE = None /\
             InstallFileHook hook w = Ret false (file_denied r (tail (va_supply w)) w)) \/
  (exists r old, next_block w = Some r /\ pages w !! FILE_PAGE = Some old /\
                 InstallFileHook hook w =
                 Ret true (file_patched hook old r (tail (va_supply w)) w)).
Proof.
  destruct (next_block w) as [r|] eqn:Hn.
  - right. destruct (pages w !! FILE_PAGE) as [old|] eqn:Hp.
    + right. exists r, old. repeat split. apply InstallFileHook_hit; assumption.
    + left. exists r. repeat split. apply InstallFileHook_denied; assumption.
  - left. split; [reflexivity | apply InstallFileHook_noalloc, Hn].
Qed.

Lemma InstallAllHooks_unfold hook w :
  InstallAllHooks hook w =
  match InstallMutexHook w with
  | Ret true w1 =>
      match InstallFileHook hook w1 with
      | Ret true w2 => Ret true (set_g_hooksInstalled true w2)
      | Ret false w2 => Ret false w2
      | Fault x => Fault x
      end
  | Ret false w1 => Ret false w1
  | Fault x => Fault x
  end.
Proof.
  unfold InstallAllHooks. rewrite run_bind.
  destruct (InstallMutexHook w) as [[|] w1|x]; try reflexivity.
  cbn [negb]. rewrite run_bind.
  destruct (InstallFileHook hook w1) as [[|] w2|x]; reflexivity.
Qed.

Lemma InstallMutexHook_true_inv w w1 :
  InstallMutexHook w = Ret true w1 ->
  exists old, pages w !! MUTEX_PAGE = Some old /\ w1 = mutex_patched old w.
Proof.
  intros H. destruct (InstallMutexHook_cases w) as [(old & Hp & E)|(_ & E)];
    rewrite E in H; [|discriminate].
  exists old. split; [exact Hp | congruence].
Qed.

Lemma InstallFileHook_true_inv hook w w1 :
  InstallFileHook hook w = Ret true w1 ->
  exists r old, next_block w = Some r /\ pages w !! FILE_PAGE = Some old /\
                w1 = file_patched hook old r (tail (va_supply w)) w.
Proof.
  intros H.
  destruct (InstallFileHook_cases hook w)
    as [(_ & E)|[(r & _ & _ & E)|(r & old & Hn & Hp & E)]];
    rewrite E in H; try discriminate.
  exists r, old. repeat split; [exact Hn | exact Hp | congruence].
Qed.

Lemma InstallFileHook_false_inv hook w w1 :
  InstallFileHook hook w = Ret false w1 ->
  (next_block w = None /\ w1 = file_noalloc w) \/
  (exists r, next_block w = Some r /\ pages w !! FILE_PAGE = None /\
             w1 = file_denied r (tail (va_supply w)) w).
Proof.
  intros H.
  destruct (InstallFileHook_cases hook w)
    as [(Hn & E)|[(r & Hn & Hp & E)|(r & old & _ & _ & E)]];
    rewrite E in H; try discriminate.
  - left. split; [exact Hn | congruence].
  - right. exists r. repeat split; [exact Hn | exact Hp | congruence].
Qed.

Lemma next_block_mutex_patched old w : next_block (mutex_patched old w) = next_block w.
Proof. reflexivity. Qed.

Lemma InstallAllHooks_true_inv hook w w2 :
  InstallAllHooks hook w = Ret true w2 ->
  exists old1 r old2,
    pages w !! MUTEX_PAGE = Some old1 /\ next_block w = Some r /\
    pages w !! FILE_PAGE = Some old2 /\
    InstallMutexHook w = Ret true (mutex_patched old1 w) /\
    InstallFileHook hook (mutex_patched old1 w) =
      Ret true (file_patched hook old2 r (tail (va_supply w)) (mutex_patched old1 w)) /\
    w2 = set_g_hooksInstalled true
           (file_patched hook old2 r (tail (va_supply w)) (mutex_patched old1 w)).
Proof.
  intros H. rewrite InstallAllHooks_unfold in H.
  destruct (InstallMutexHook_cases w) as [(old1 & Hp1 & E1)|(_ & E1)];
    rewrite E1 in H; [|discriminate].
  destruct (InstallFileHook_cases hook (mutex_patched old1 w))
    as [(_ & E2)|[(r & _ & _ & E2)|(r & old2 & Hn & Hp2 & E2)]];
    rewrite E2 in H; try discriminate.
  injection H as <-.
  exists old1, r, old2.
  rewrite next_block_mutex_patched in Hn.
  change (pages (mutex_patched old1 w)) with (pages w) in Hp2.
  change (va_supply (mutex_patched old1 w)) with (va_supply w) in E2.
  split; [exact Hp1|]. split; [exact Hn|]. split; [exact Hp2|].
  split; [exact E1|]. split; [exact E2 | reflexivity].
Qed.

(** No function of the DLL can fault: every access to host memory is made
    under a protection the function has just obtained. *)
Lemma InstallAllHooks_returns hook w :
  exists ok w', InstallAllHooks hook w = Ret ok w'.
Proof.
  rewrite InstallAllHooks_unfold.
  destruct (InstallMutexHook_cases w) as [(old1 & _ & E1)|(_ & E1)]; rewrite E1; [|eauto].
  destruct (InstallFileHook_cases hook (mutex_patched old1 w))
    as [(_ & E2)|[(r & _ & _ & E2)|(r & old2 & _ & _ & E2)]]; rewrite E2; eauto.
Qed.

(** * The claims *)

Lemma add32_signed32 x o :
  0 <= o < 2 ^ 32 -> wrap32 (x + signed32 o) = add32 (wrap32 x) o.
Proof.
  intros Ho. unfold add32.
  rewrite <- (signed32_congr o Ho) at 2.
  unfold wrap32. now rewrite <- Zplus_mod.
Qed.

Lemma sub32_range a b : 0 <= sub32 a b < 2 ^ 32.
Proof. apply wrap32_range. Qed.

(** C4. Relative displacement of a 5-byte jump: for a jump placed at [A]
    with destination [dest], the displacement [hookOffset dest A] computed by
    InstallFileHook satisfies [A + 5 + offset = dest] in 32-bit arithmetic,
    also when the displacement is read as a signed number (destination below
    [A]); the trampoline's jump back, placed at [T], is computed on its own
    by the same formula with destination [A + 5] and instruction address [T]. *)
Theorem jump_offset_correct (A dest T : Z) :
  0 <= dest < 2 ^ 32 ->
  add32 (add32 (wrap32 A) 5) (hookOffset dest A) = dest /\
  wrap32 (A + 5 + signed32 (hookOffset dest A)) = dest /\
  (dest < wrap32 A + 5 < 2 ^ 31 -> signed32 (hookOffset dest A) < 0) /\
  add32 (add32 (wrap32 T) 5) (jumpOffset A T) = add32 (wrap32 A) 5 /\
  wrap32 (T + 5 + signed32 (jumpOffset A T)) = wrap32 (A + 5) /\
  hookOffset dest A = sub32 dest (add32 A 5) /\
  jumpOffset A T = sub32 (add32 A 5) (add32 T 5) /\
  jumpOffset A T = hookOffset (add32 A 5) T.
Proof.
  intros Hd.
  assert (E1 : add32 (add32 (wrap32 A) 5) (hookOffset dest A) = dest).
  { unfold hookOffset. rewrite add32_sub32, wrap32_idemp. now apply wrap32_small. }
  assert (E2 : add32 (add32 (wrap32 T) 5) (jumpOffset A T) = add32 (wrap32 A) 5).
  { unfold jumpOffset. rewrite add32_sub32. apply wrap32_idemp. }
  split; [exact E1|].
  split.
  { rewrite add32_signed32 by apply sub32_range.
    rewrite <- E1 at 2. f_equal. now rewrite add32_wrap_l. }
  split.
  { intros Hlt. pose proof (wrap32_range A) as HA.
    unfold hookOffset, sub32, add32.
    change (2 ^ 31) with 2147483648 in *. change (2 ^ 32) with 4294967296 in *.
    rewrite (wrap32_small dest) by (change (2 ^ 32) with 4294967296; lia).
    rewrite (wrap32_small (wrap32 A + 5)) by (change (2 ^ 32) with 4294967296; lia).
    set (a := wrap32 A) in *.
    assert (E : wrap32 (dest - (a + 5)) = dest - (a + 5) + 4294967296).
    { unfold wrap32. change (2 ^ 32) with 4294967296. symmetry.
      apply Z.mod_unique with (q := -1); lia. }
    rewrite E. unfold signed32.
    change (2 ^ 31) with 2147483648. change (2 ^ 32) with 4294967296.
    destruct (Z.ltb_spec (dest - (a + 5) + 4294967296) 2147483648); lia. }
  split; [exact E2|].
  split.
  { rewrite add32_signed32 by apply sub32_range.
    change (wrap32 (A + 5)) with (add32 A 5).
    rewrite <- (add32_wrap_l A 5), <- E2. f_equal. now rewrite add32_wrap_l. }
  split.
  { unfold hookOffset. rewrite (wrap32_small dest Hd), add32_wrap_l. reflexivity. }
  split.
  { unfold jumpOffset. now rewrite !add32_wrap_l. }
  unfold jumpOffset, hookOffset. rewrite !add32_wrap_l.
  unfold add32 at 3. now rewrite wrap32_idemp.
Qed.

(** A jump at the file target back to a destination below it. *)
Lemma jump_offset_correct_witness :
  0 <= 0x00400000 < 2 ^ 32 /\
  add32 (add32 (wrap32 CLBLOCKALLOCATOR_OPENDATAFILE_ADDR) 5)
        (hookOffset 0x00400000 CLBLOCKALLOCATOR_OPENDATAFILE_ADDR) = 0x00400000.
Proof.
  split; [split; [lia | reflexivity] |].
  apply (jump_offset_correct CLBLOCKALLOCATOR_OPENDATAFILE_ADDR 0x00400000 0x00A50005).
  split; [lia | reflexivity].
Defined.

Lemma HookStartup_unfold hook w :
  HookStartup hook w =
  match InstallAllHooks hook w with
  | Ret true w' => Ret 1 w'
  | Ret false w' => Ret 0 w'
  | Fault x => Fault x
  end.
Proof.
  unfold HookStartup. rewrite run_bind.
  destruct (InstallAllHooks hook w) as [[|] w'|x]; reflexivity.
Qed.

(** C6. With the flag clear, RemoveAllHooks returns the world it was given:
    no system call, no store, no change of any global; DllMain on
    DLL_PROCESS_DETACH therefore does nothing either and returns TRUE. The
    flag is clear when HookStartup was never called, and still clear whenever
    InstallAllHooks has returned FALSE. *)
Theorem uninstall_before_install (hook hModule lpReserved : Z) (w : World) :
  g_hooksInstalled w = false ->
  RemoveAllHooks w = Ret tt w /\
  DllMain hModule DLL_PROCESS_DETACH lpReserved w = Ret true w /\
  exists ok w1,
    InstallAllHooks hook w = Ret ok w1 /\
    (ok = false ->
     g_hooksInstalled w1 = false /\
     RemoveAllHooks w1 = Ret tt w1 /\
     DllMain hModule DLL_PROCESS_DETACH lpReserved w1 = Ret true w1).
Proof.
  intros Hf.
  assert (Hd : forall w0, g_hooksInstalled w0 = false ->
                 DllMain hModule DLL_PROCESS_DETACH lpReserved w0 = Ret true w0).
  { intros w0 H0. unfold DllMain. cbn [Z.eqb DLL_PROCESS_DETACH DLL_PROCESS_ATTACH].
    rewrite run_bind, (RemoveAllHooks_idle w0 H0). reflexivity. }
  split; [apply RemoveAllHooks_idle, Hf|]. split; [apply Hd, Hf|].
  assert (Hfail : forall ok w1, InstallAllHooks hook w = Ret ok w1 -> ok = false ->
                    g_hooksInstalled w1 = false).
  { intros ok w1 H -> . rewrite InstallAllHooks_unfold in H.
    destruct (InstallMutexHook_cases w) as [(old1 & _ & E1)|(_ & E1)]; rewrite E1 in H.
    - destruct (InstallFileHook_cases hook (mutex_patched old1 w))
        as [(_ & E2)|[(r & _ & _ & E2)|(r & old2 & _ & _ & E2)]];
        rewrite E2 in H; try discriminate; injection H as <-; exact Hf.
    - injection H as <-. exact Hf. }
  destruct (InstallAllHooks_returns hook w) as (ok & w1 & E).
  exists ok, w1. split; [exact E|]. intros Hok.
  pose proof (Hfail ok w1 E Hok) as H1.
  split; [exact H1|]. split; [apply RemoveAllHooks_idle, H1 | apply Hd, H1].
Qed.

(** ** Install followed by uninstall *)

(** Linear arithmetic over the two target addresses and window lengths. *)
Ltac addr_lia :=
  rewrite ?length_load_bytes;
  unfold CLIENT_ISALREADYRUNNING_ADDR, CLBLOCKALLOCATOR_OPENDATAFILE_ADDR, PAGE_SIZE in *;
  cbn [length patchBytes le32 Z.of_nat Pos.of_succ_nat Pos.succ] in *;
  lia.

Lemma trampoline_mem_outside m r b n :
  b + Z.of_nat n <= r \/ r + PAGE_SIZE <= b ->
  load_bytes (trampoline_mem m r) b n = load_bytes m b n.
Proof.
  intros H. unfold trampoline_mem. unfold PAGE_SIZE in *.
  rewrite !load_store_disjoint;
    [ apply load_zero_disjoint; lia
    | rewrite length_load_bytes; lia
    | cbn [length]; lia
    | cbn [length le32]; lia ].
Qed.

Lemma file_snapshot_after_mutex m :
  load_bytes (store_bytes m CLIENT_ISALREADYRUNNING_ADDR patchBytes)
    CLBLOCKALLOCATOR_OPENDATAFILE_ADDR 32 =
  load_bytes m CLBLOCKALLOCATOR_OPENDATAFILE_ADDR 32.
Proof. apply load_store_disjoint. addr_lia. Qed.

Lemma removed_installed hook old1 old2 r w :
  pages w !! MUTEX_PAGE = Some old1 ->
  pages w !! FILE_PAGE = Some old2 ->
  next_block w = Some r ->
  removed (installed_world hook old1 old2 r w) = uninstalled_world hook old1 old2 r w.
Proof.
  intros Hp1 Hp2 Hn. apply next_block_Some in Hn as [_ Hv].
  destruct (valid_base_inv w r Hv) as (H0 & _ & Hm & Hfree & Hna & Hr).
  destruct (block_page_not_target r Hm) as [Hne1 Hne2].
  unfold removed, uninstalled_world. cbv zeta.
  set (wi := installed_world hook old1 old2 r w).
  assert (Hpg : pages wi = <[page_of r := PAGE_EXECUTE_READWRITE]> (pages w)) by reflexivity.
  assert (Hs1 : g_mutexOriginalBytes wi = load_bytes (mem w) CLIENT_ISALREADYRUNNING_ADDR 16)
    by reflexivity.
  assert (Hs2 : g_fileOriginalBytes wi = load_bytes (mem w) CLBLOCKALLOCATOR_OPENDATAFILE_ADDR 32)
    by (apply file_snapshot_after_mutex).
  assert (Hal : allocs wi = <[r := 32]> (allocs w)) by reflexivity.
  assert (Hg : g_fileHookTrampoline wi = r) by reflexivity.
  assert (Hva : va_supply wi = tail (va_supply w)) by reflexivity.
  assert (Hod : g_originalOpenDataFile wi = r) by reflexivity.
  rewrite Hs1, Hs2.
  unfold reverted at 2. rewrite Hpg.
  change (page_of CLIENT_ISALREADYRUNNING_ADDR) with MUTEX_PAGE.
  rewrite lookup_insert_ne by exact Hne1. rewrite Hp1.
  unfold reverted. wsimpl.
  change (page_of CLBLOCKALLOCATOR_OPENDATAFILE_ADDR) with FILE_PAGE.
  rewrite lookup_insert_ne by exact Hne2. rewrite Hp2.
  unfold released. wsimpl. rewrite Hg, Hal, Hod, Hva.
  destruct (Z.eqb_spec r NULL) as [E|_]; [unfold NULL in E; lia|].
  rewrite lookup_insert_eq, Hr. cbn [foldr].
  rewrite !delete_insert_eq, (delete_id _ _ Hfree), (delete_id _ _ Hna).
  rewrite !resize_all_alt by (now rewrite length_load_bytes).
  rewrite <- !app_assoc. reflexivity.
Qed.

(** The two target windows in the three worlds. *)
Lemma mutex_window_patched old w :
  load_bytes (mem (mutex_patched old w)) CLIENT_ISALREADYRUNNING_ADDR 16 =
  patchBytes ++ load_bytes (mem w) (CLIENT_ISALREADYRUNNING_ADDR + 3) 13.
Proof. apply (load_store_prefix (mem w) CLIENT_ISALREADYRUNNING_ADDR patchBytes 16). cbn. lia. Qed.

Lemma mutex_window_installed hook old1 old2 r w :
  r mod ALLOCATION_GRANULARITY = 0 ->
  load_bytes (mem (installed_world hook old1 old2 r w)) CLIENT_ISALREADYRUNNING_ADDR 16 =
  patchBytes ++ load_bytes (mem w) (CLIENT_ISALREADYRUNNING_ADDR + 3) 13.
Proof.
  intros Hm. pose proof (block_disjoint_mutex r Hm) as Hd.
  cbn [installed_world set_g_hooksInstalled file_patched mem].
  rewrite load_store_disjoint by addr_lia.
  rewrite trampoline_mem_outside by exact Hd.
  apply mutex_window_patched.
Qed.

Lemma windows_uninstalled hook old1 old2 r w :
  load_bytes (mem (uninstalled_world hook old1 old2 r w)) CLIENT_ISALREADYRUNNING_ADDR 16 =
    load_bytes (mem w) CLIENT_ISALREADYRUNNING_ADDR 16 /\
  load_bytes (mem (uninstalled_world hook old1 old2 r w)) CLBLOCKALLOCATOR_OPENDATAFILE_ADDR 32 =
    load_bytes (mem w) CLBLOCKALLOCATOR_OPENDATAFILE_ADDR 32.
Proof.
  unfold uninstalled_world. cbv zeta. cbn [mem]. split.
  - rewrite load_store_disjoint by addr_lia.
    rewrite <- (length_load_bytes (mem w) CLIENT_ISALREADYRUNNING_ADDR 16) at 3.
    apply load_store_same.
  - rewrite <- (length_load_bytes (mem w) CLBLOCKALLOCATOR_OPENDATAFILE_ADDR 32) at 3.
    apply load_store_same.
Qed.

(** Never installed, and installed halfway: teardown changes nothing. *)
Lemma uninstall_before_install_witness :
  g_hooksInstalled demo_world_nofile = false /\
  RemoveAllHooks demo_world_nofile = Ret tt demo_world_nofile /\
  DllMain 0x10000000 DLL_PROCESS_DETACH 0 demo_world_nofile = Ret true demo_world_nofile /\
  InstallAllHooks demo_hook demo_world_nofile = Ret false partial_world /\
  DllMain 0x10000000 DLL_PROCESS_DETACH 0 partial_world = Ret true partial_world.
Proof.
  split; [reflexivity|].
  destruct (uninstall_before_install demo_hook 0x10000000 0 demo_world_nofile eq_refl)
    as (H1 & H2 & ok & w1 & E & H3).
  split; [exact H1|]. split; [exact H2|].
  assert (E' : InstallAllHooks demo_hook demo_world_nofile = Ret false partial_world)
    by reflexivity.
  split; [exact E'|].
  rewrite E' in E. injection E as <- <-.
  apply H3. reflexivity.
Defined.

Lemma RemoveAllHooks_installed_world hook old1 old2 r w :
  pages w !! MUTEX_PAGE = Some old1 ->
  pages w !! FILE_PAGE = Some old2 ->
  next_block w = Some r ->
  RemoveAllHooks (installed_world hook old1 old2 r w) =
  Ret tt (uninstalled_world hook old1 old2 r w).
Proof.
  intros Hp1 Hp2 Hn. rewrite RemoveAllHooks_installed by reflexivity.
  f_equal. apply removed_installed; assumption.
Qed.

(** C7. The mutex patch stores exactly the three bytes 31 C0 C3 at the start
    of the target: the 16-byte window then reads as those bytes followed by
    the 13 bytes that were there, nothing outside the three bytes changes,
    and the saved copy is the window as it was. Once the install has
    completed, RemoveAllHooks puts the window back byte for byte. *)
Theorem inline_patch_bytes (hook : Z) (w w1 : World) :
  InstallMutexHook w = Ret true w1 ->
  (exists old,
     trace w1 = trace w ++
       [EvProtect CLIENT_ISALREADYRUNNING_ADDR 16 PAGE_EXECUTE_READWRITE true;
        EvStore CLIENT_ISALREADYRUNNING_ADDR [0x31; 0xC0; 0xC3];
        EvProtect CLIENT_ISALREADYRUNNING_ADDR 16 old true]) /\
  load_bytes (mem w1) CLIENT_ISALREADYRUNNING_ADDR 16 =
    [0x31; 0xC0; 0xC3] ++ load_bytes (mem w) (CLIENT_ISALREADYRUNNING_ADDR + 3) 13 /\
  (forall x, x < CLIENT_ISALREADYRUNNING_ADDR \/ CLIENT_ISALREADYRUNNING_ADDR + 3 <= x ->
             mem w1 x = mem w x) /\
  g_mutexOriginalBytes w1 = load_bytes (mem w) CLIENT_ISALREADYRUNNING_ADDR 16 /\
  (forall w2, InstallAllHooks hook w = Ret true w2 ->
     load_bytes (mem w2) CLIENT_ISALREADYRUNNING_ADDR 16 =
       [0x31; 0xC0; 0xC3] ++ load_bytes (mem w) (CLIENT_ISALREADYRUNNING_ADDR + 3) 13 /\
     exists w3,
       RemoveAllHooks w2 = Ret tt w3 /\
       load_bytes (mem w3) CLIENT_ISALREADYRUNNING_ADDR 16 =
         load_bytes (mem w) CLIENT_ISALREADYRUNNING_ADDR 16).
Proof.
  intros H. apply InstallMutexHook_true_inv in H as (old & Hp & ->).
  split; [exists old; reflexivity|].
  split; [apply mutex_window_patched|].
  split; [intros x Hx; apply store_bytes_outside; cbn [length patchBytes]; lia|].
  split; [reflexivity|].
  intros w2 H2.
  apply InstallAllHooks_true_inv in H2 as (old1 & r & old2 & Hp1 & Hn & Hp2 & _ & _ & ->).
  destruct (next_block_Some w r Hn) as [_ Hv].
  destruct (valid_base_inv w r Hv) as (_ & _ & Hm & _).
  fold (installed_world hook old1 old2 r w).
  split; [apply mutex_window_installed, Hm|].
  exists (uninstalled_world hook old1 old2 r w).
  split; [apply RemoveAllHooks_installed_world; assumption|].
  apply windows_uninstalled.
Qed.

(** On the concrete host: the prologue 55 8B EC becomes 31 C0 C3. *)
Lemma inline_patch_bytes_witness :
  InstallMutexHook demo_world = Ret true (mutex_patched PAGE_EXECUTE_READ demo_world) /\
  load_bytes (mem demo_world) CLIENT_ISALREADYRUNNING_ADDR 3 = [0x55; 0x8B; 0xEC] /\
  load_bytes (mem (mutex_patched PAGE_EXECUTE_READ demo_world))
    CLIENT_ISALREADYRUNNING_ADDR 16 =
    [0x31; 0xC0; 0xC3] ++ load_bytes (mem demo_world) (CLIENT_ISALREADYRUNNING_ADDR + 3) 13.
Proof.
  split; [reflexivity|]. split; [reflexivity|].
  destruct (inline_patch_bytes demo_hook demo_world
              (mutex_patched PAGE_EXECUTE_READ demo_world) eq_refl) as (_ & H & _).
  exact H.
Defined.

(** C2. After a successful InstallAllHooks, RemoveAllHooks writes both saved
    windows back: each target window reads exactly as it did before the
    install, which is also what the saved copies hold. That call releases
    the trampoline block once and clears the handle; a second RemoveAllHooks
    returns the world unchanged, so it makes no system call at all, hence
    no second VirtualFree, and cannot fault. *)
Theorem apply_revert_revert (hook : Z) (w w1 : World) :
  InstallAllHooks hook w = Ret true w1 ->
  g_mutexOriginalBytes w1 = load_bytes (mem w) CLIENT_ISALREADYRUNNING_ADDR 16 /\
  g_fileOriginalBytes w1 = load_bytes (mem w) CLBLOCKALLOCATOR_OPENDATAFILE_ADDR 32 /\
  exists w2,
    RemoveAllHooks w1 = Ret tt w2 /\
    load_bytes (mem w2) CLIENT_ISALREADYRUNNING_ADDR 16 =
      load_bytes (mem w) CLIENT_ISALREADYRUNNING_ADDR 16 /\
    load_bytes (mem w2) CLBLOCKALLOCATOR_OPENDATAFILE_ADDR 32 =
      load_bytes (mem w) CLBLOCKALLOCATOR_OPENDATAFILE_ADDR 32 /\
    (exists old1 old2,
       trace w2 = trace w1 ++
         [EvProtect CLIENT_ISALREADYRUNNING_ADDR 16 PAGE_EXECUTE_READWRITE true;
          EvStore CLIENT_ISALREADYRUNNING_ADDR (g_mutexOriginalBytes w1);
          EvProtect CLIENT_ISALREADYRUNNING_ADDR 16 old1 true;
          EvProtect CLBLOCKALLOCATOR_OPENDATAFILE_ADDR 32 PAGE_EXECUTE_READWRITE true;
          EvStore CLBLOCKALLOCATOR_OPENDATAFILE_ADDR (g_fileOriginalBytes w1);
          EvProtect CLBLOCKALLOCATOR_OPENDATAFILE_ADDR 32 old2 true;
          EvFree (g_fileHookTrampoline w1) true]) /\
    g_fileHookTrampoline w1 <> NULL /\
    g_fileHookTrampoline w2 = NULL /\
    allocs w2 !! g_fileHookTrampoline w1 = None /\
    g_hooksInstalled w2 = false /\
    RemoveAllHooks w2 = Ret tt w2.
Proof.
  intros H.
  apply InstallAllHooks_true_inv in H as (old1 & r & old2 & Hp1 & Hn & Hp2 & _ & _ & ->).
  fold (installed_world hook old1 old2 r w).
  destruct (next_block_Some w r Hn) as [_ Hv].
  destruct (valid_base_inv w r Hv) as (H0 & _ & Hm & _ & Hna & _).
  split; [reflexivity|]. split; [apply file_snapshot_after_mutex|].
  exists (uninstalled_world hook old1 old2 r w).
  split; [apply RemoveAllHooks_installed_world; assumption|].
  destruct (windows_uninstalled hook old1 old2 r w) as [Hw1 Hw2].
  split; [exact Hw1|]. split; [exact Hw2|].
  split.
  { exists old1, old2.
    change (g_fileOriginalBytes (installed_world hook old1 old2 r w))
      with (load_bytes (store_bytes (mem w) CLIENT_ISALREADYRUNNING_ADDR patchBytes)
              CLBLOCKALLOCATOR_OPENDATAFILE_ADDR 32).
    rewrite file_snapshot_after_mutex. reflexivity. }
  split; [change (r <> NULL); unfold NULL; lia|].
  split; [reflexivity|]. split; [exact Hna|]. split; [reflexivity|].
  apply RemoveAllHooks_idle. reflexivity.
Qed.

Lemma apply_revert_revert_witness :
  InstallAllHooks demo_hook demo_world =
    Ret true (installed_world demo_hook PAGE_EXECUTE_READ PAGE_EXECUTE_READ 0x00A50000 demo_world) /\
  exists w2,
    RemoveAllHooks (installed_world demo_hook PAGE_EXECUTE_READ PAGE_EXECUTE_READ 0x00A50000 demo_world)
      = Ret tt w2 /\
    load_bytes (mem w2) CLIENT_ISALREADYRUNNING_ADDR 16 =
      load_bytes (mem demo_world) CLIENT_ISALREADYRUNNING_ADDR 16 /\
    RemoveAllHooks w2 = Ret tt w2.
Proof.
  split; [reflexivity|].
  destruct (apply_revert_revert demo_hook demo_world
              (installed_world demo_hook PAGE_EXECUTE_READ PAGE_EXECUTE_READ 0x00A50000 demo_world)
              eq_refl)
    as (_ & _ & w2 & Hr & Hm & _ & _ & _ & _ & _ & _ & Hi).
  exists w2. split; [exact Hr|]. split; [exact Hm | exact Hi].
Defined.

(** ** The trampoline *)

Lemma load_store_same_n m a bs n :
  length bs = n -> load_bytes (store_bytes m a bs) a n = bs.
Proof. intros <-. apply load_store_same. Qed.

Lemma block_page_of r d :
  r mod ALLOCATION_GRANULARITY = 0 -> 0 <= d < PAGE_SIZE -> page_of (r + d) = page_of r.
Proof.
  intros Hr Hd. unfold page_of, PAGE_SIZE, ALLOCATION_GRANULARITY in *.
  Z.div_mod_to_equations. lia.
Qed.

Lemma jumpOffset_lands A T :
  add32 (add32 (wrap32 T) 5) (jumpOffset A T) = add32 (wrap32 A) 5.
Proof. unfold jumpOffset. rewrite add32_sub32. apply wrap32_idemp. Qed.

Lemma jumpOffset_range A T : 0 <= jumpOffset A T < 2 ^ 32.
Proof. apply wrap32_range. Qed.

Lemma trampoline_contents m r :
  load_bytes (trampoline_mem m r) r 5 = load_bytes m CLBLOCKALLOCATOR_OPENDATAFILE_ADDR 5 /\
  load_bytes (trampoline_mem m r) (r + 5) 1 = [0xE9] /\
  load_bytes (trampoline_mem m r) (r + 5 + 1) 4 =
    le32 (jumpOffset CLBLOCKALLOCATOR_OPENDATAFILE_ADDR (r + 5)).
Proof.
  unfold trampoline_mem. repeat split.
  - rewrite !load_store_disjoint by (cbn [length le32]; lia).
    apply load_store_same_n, length_load_bytes.
  - rewrite load_store_disjoint by (cbn [length le32]; lia).
    apply load_store_same_n. reflexivity.
  - apply load_store_same_n. reflexivity.
Qed.

(** C5. When InstallFileHook succeeds, the trampoline block holds the first
    five bytes of the target as they were before the call, then E9 and a
    displacement that lands on target + 5; the block is filled in (three
    stores) before the only store into the target, which writes the
    diverting jump, so the five bytes were copied from unpatched code. The
    handle and the original-function pointer both hold the block's base. *)
Theorem trampoline_built (hook : Z) (w w1 : World) :
  InstallFileHook hook w = Ret true w1 ->
  let t := g_fileHookTrampoline w1 in
  t <> NULL /\ g_originalOpenDataFile w1 = t /\
  load_bytes (mem w1) t 5 = load_bytes (mem w) CLBLOCKALLOCATOR_OPENDATAFILE_ADDR 5 /\
  load_bytes (mem w1) (t + 5) 1 = [0xE9] /\
  of_le32 (load_bytes (mem w1) (t + 6) 4) =
    jumpOffset CLBLOCKALLOCATOR_OPENDATAFILE_ADDR (t + 5) /\
  add32 (add32 (t + 5) 5) (jumpOffset CLBLOCKALLOCATOR_OPENDATAFILE_ADDR (t + 5)) =
    CLBLOCKALLOCATOR_OPENDATAFILE_ADDR + 5 /\
  load_bytes (mem w1) CLBLOCKALLOCATOR_OPENDATAFILE_ADDR 5 =
    0xE9 :: le32 (hookOffset hook CLBLOCKALLOCATOR_OPENDATAFILE_ADDR) /\
  exists old,
    trace w1 = trace w ++
      [EvAlloc 32 t;
       EvProtect CLBLOCKALLOCATOR_OPENDATAFILE_ADDR 32 PAGE_EXECUTE_READWRITE true;
       EvStore t (load_bytes (mem w) CLBLOCKALLOCATOR_OPENDATAFILE_ADDR 5);
       EvStore (t + 5) [0xE9];
       EvStore (t + 5 + 1) (le32 (jumpOffset CLBLOCKALLOCATOR_OPENDATAFILE_ADDR (t + 5)));
       EvStore CLBLOCKALLOCATOR_OPENDATAFILE_ADDR
         (0xE9 :: le32 (hookOffset hook CLBLOCKALLOCATOR_OPENDATAFILE_ADDR));
       EvProtect CLBLOCKALLOCATOR_OPENDATAFILE_ADDR 32 old true].
Proof.
  intros H. apply InstallFileHook_true_inv in H as (r & old & Hn & Hp & ->).
  destruct (next_block_Some w r Hn) as [_ Hv].
  destruct (valid_base_inv w r Hv) as (H0 & Hle & Hm & _).
  pose proof (block_disjoint_file r Hm) as Hd.
  destruct (trampoline_contents (mem w) r) as (T1 & T2 & T3).
  cbv zeta. change (g_fileHookTrampoline (file_patched hook old r (tail (va_supply w)) w)) with r.
  change (mem (file_patched hook old r (tail (va_supply w)) w))
    with (store_bytes (trampoline_mem (mem w) r) CLBLOCKALLOCATOR_OPENDATAFILE_ADDR
            (0xE9 :: le32 (hookOffset hook CLBLOCKALLOCATOR_OPENDATAFILE_ADDR))).
  split; [unfold NULL; lia|]. split; [reflexivity|].
  split; [rewrite load_store_disjoint by addr_lia; exact T1|].
  split; [rewrite load_store_disjoint by addr_lia; exact T2|].
  split.
  { replace (r + 6) with (r + 5 + 1) by lia.
    rewrite load_store_disjoint by addr_lia. rewrite T3.
    apply of_le32_le32, jumpOffset_range. }
  split.
  { rewrite <- (wrap32_small (r + 5)) at 1
      by (change (2 ^ 32) with 4294967296 in *; lia).
    rewrite jumpOffset_lands. reflexivity. }
  split; [apply load_store_same_n; reflexivity|].
  exists old. reflexivity.
Qed.

Lemma trampoline_built_witness :
  InstallFileHook demo_hook demo_world =
    Ret true (file_patched demo_hook PAGE_EXECUTE_READ 0x00A50000 [] demo_world) /\
  load_bytes (mem (file_patched demo_hook PAGE_EXECUTE_READ 0x00A50000 [] demo_world))
    0x00A50000 5 =
  load_bytes (mem demo_world) CLBLOCKALLOCATOR_OPENDATAFILE_ADDR 5.
Proof.
  split; [reflexivity|].
  destruct (trampoline_built demo_hook demo_world
              (file_patched demo_hook PAGE_EXECUTE_READ 0x00A50000 [] demo_world) eq_refl)
    as (_ & _ & H & _).
  exact H.
Defined.

Lemma file_denied_peek w r rest :
  valid_base w r 32 = true -> forall a, peek (file_denied r rest w) a = peek w a.
Proof.
  intros Hv a. destruct (valid_base_inv w r Hv) as (H0 & Hle & Hm & Hfree & _).
  unfold peek. change (pages (file_denied r rest w)) with (pages w).
  destruct (pages w !! page_of a) eqn:Ha; [|reflexivity].
  f_equal. change (mem (file_denied r rest w) a) with (zero_range (mem w) r PAGE_SIZE a).
  unfold zero_range.
  destruct (Z.leb_spec r a), (Z.ltb_spec a (r + PAGE_SIZE)); cbn [andb]; try reflexivity.
  exfalso. replace a with (r + (a - r)) in Ha by lia.
  rewrite block_page_of in Ha by (try exact Hm; lia). congruence.
Qed.

(** C10. When VirtualAlloc has granted block [r] and the protection change
    on the file target is then refused, InstallFileHook returns FALSE having
    made three system calls and no store: the block is released again, the
    handle is NULL, the page table and the set of live blocks are as before,
    every readable byte of the host is unchanged, and the original-function
    pointer, both saved windows and the installed flag keep their values. *)
Theorem file_hook_denied_atomic (hook : Z) (w : World) (r : Z) :
  next_block w = Some r ->
  pages w !! FILE_PAGE = None ->
  exists w',
    InstallFileHook hook w = Ret false w' /\
    trace w' = trace w ++
      [EvAlloc 32 r;
       EvProtect CLBLOCKALLOCATOR_OPENDATAFILE_ADDR 32 PAGE_EXECUTE_READWRITE false;
       EvFree r true] /\
    g_fileHookTrampoline w' = NULL /\
    allocs w' = allocs w /\
    pages w' = pages w /\
    (forall a, peek w' a = peek w a) /\
    load_bytes (mem w') CLBLOCKALLOCATOR_OPENDATAFILE_ADDR 32 =
      load_bytes (mem w) CLBLOCKALLOCATOR_OPENDATAFILE_ADDR 32 /\
    g_originalOpenDataFile w' = g_originalOpenDataFile w /\
    g_mutexOriginalBytes w' = g_mutexOriginalBytes w /\
    g_fileOriginalBytes w' = g_fileOriginalBytes w /\
    g_hooksInstalled w' = g_hooksInstalled w /\
    (g_fileHookTrampoline w = NULL -> g_fileHookTrampoline w' = g_fileHookTrampoline w).
Proof.
  intros Hn Hp. exists (file_denied r (tail (va_supply w)) w).
  split; [apply InstallFileHook_denied; assumption|].
  destruct (next_block_Some w r Hn) as [_ Hv].
  destruct (valid_base_inv w r Hv) as (H0 & Hle & Hm & Hfree & _).
  pose proof (block_disjoint_file r Hm) as Hd.
  split; [reflexivity|]. split; [reflexivity|]. split; [reflexivity|].
  split; [reflexivity|].
  split; [apply file_denied_peek, Hv|].
  split; [apply load_zero_disjoint; cbn [Z.of_nat Pos.of_succ_nat Pos.succ]; lia|].
  repeat split. intros ->. reflexivity.
Qed.

Lemma file_hook_denied_atomic_witness :
  next_block demo_world_nofile = Some 0x00A50000 /\
  pages demo_world_nofile !! FILE_PAGE = None /\
  exists w',
    InstallFileHook demo_hook demo_world_nofile = Ret false w' /\
    g_fileHookTrampoline w' = NULL /\
    pages w' = pages demo_world_nofile.
Proof.
  split; [reflexivity|]. split; [reflexivity|].
  destruct (file_hook_denied_atomic demo_hook demo_world_nofile 0x00A50000 eq_refl eq_refl)
    as (w' & H1 & _ & H2 & _ & H3 & _).
  exists w'. split; [exact H1|]. split; [exact H2 | exact H3].
Defined.

Lemma patches_in_place hook old1 old2 r w :
  r mod ALLOCATION_GRANULARITY = 0 ->
  let w' := installed_world hook old1 old2 r w in
  g_hooksInstalled w' = true /\
  load_bytes (mem w') CLIENT_ISALREADYRUNNING_ADDR 3 = [0x31; 0xC0; 0xC3] /\
  load_bytes (mem w') CLBLOCKALLOCATOR_OPENDATAFILE_ADDR 5 =
    0xE9 :: le32 (hookOffset hook CLBLOCKALLOCATOR_OPENDATAFILE_ADDR).
Proof.
  intros Hm. cbv zeta. split; [reflexivity|].
  pose proof (block_disjoint_mutex r Hm) as Hd.
  cbn [installed_world set_g_hooksInstalled file_patched mutex_patched mem].
  split.
  - rewrite load_store_disjoint by addr_lia.
    rewrite trampoline_mem_outside by addr_lia.
    apply load_store_same_n. reflexivity.
  - apply load_store_same_n. reflexivity.
Qed.

(** C9. HookStartup takes no argument and always returns, with 1 or 0 and
    nothing else: 1 exactly when InstallMutexHook and then InstallFileHook
    both returned TRUE, which happens exactly when the mutex page is
    committed, VirtualAlloc grants a block and the file page is committed,
    and then both targets hold their patch and the flag is set; a denied
    protection change or a failed allocation gives 0 with the flag as it
    was. *)
Theorem HookStartup_signal (hook : Z) (w : World) :
  exists r w',
    HookStartup hook w = Ret r w' /\
    (r = 1 \/ r = 0) /\
    (r <> 0 <->
     exists w1 w2, InstallMutexHook w = Ret true w1 /\
                   InstallFileHook hook w1 = Ret true w2 /\
                   w' = set_g_hooksInstalled true w2) /\
    (r <> 0 <->
     is_Some (pages w !! MUTEX_PAGE) /\ is_Some (next_block w) /\
     is_Some (pages w !! FILE_PAGE)) /\
    (r <> 0 <-> InstallAllHooks hook w = Ret true w') /\
    (r <> 0 ->
     g_hooksInstalled w' = true /\
     load_bytes (mem w') CLIENT_ISALREADYRUNNING_ADDR 3 = [0x31; 0xC0; 0xC3] /\
     load_bytes (mem w') CLBLOCKALLOCATOR_OPENDATAFILE_ADDR 5 =
       0xE9 :: le32 (hookOffset hook CLBLOCKALLOCATOR_OPENDATAFILE_ADDR)) /\
    (r = 0 -> g_hooksInstalled w' = g_hooksInstalled w).
Proof.
  pose proof (HookStartup_unfold hook w) as HS.
  pose proof (InstallAllHooks_unfold hook w) as HA.
  destruct (InstallMutexHook_cases w) as [(old1 & Hp1 & E1)|(Hp1 & E1)].
  - destruct (InstallFileHook_cases hook (mutex_patched old1 w))
      as [(Hn & E2)|[(r & Hn & Hp2 & E2)|(r & old2 & Hn & Hp2 & E2)]];
      rewrite E1, E2 in HA; rewrite HA in HS;
      rewrite next_block_mutex_patched in Hn;
      try change (pages (mutex_patched old1 w)) with (pages w) in Hp2.
    + eexists 0, _. split; [exact HS|]. split; [right; reflexivity|].
      split; [|split; [|split; [|split; [intros []; reflexivity | reflexivity]]]];
        (split; [intros []; reflexivity|]).
      * intros (w1 & w2 & Ha & Hb & _). rewrite E1 in Ha. injection Ha as <-.
        rewrite E2 in Hb. discriminate.
      * intros (_ & [x Hx] & _). congruence.
      * rewrite HA. discriminate.
    + eexists 0, _. split; [exact HS|]. split; [right; reflexivity|].
      split; [|split; [|split; [|split; [intros []; reflexivity | reflexivity]]]];
        (split; [intros []; reflexivity|]).
      * intros (w1 & w2 & Ha & Hb & _). rewrite E1 in Ha. injection Ha as <-.
        rewrite E2 in Hb. discriminate.
      * intros (_ & _ & [x Hx]). congruence.
      * rewrite HA. discriminate.
    + destruct (next_block_Some w r Hn) as [_ Hv].
      destruct (valid_base_inv w r Hv) as (_ & _ & Hm & _).
      eexists 1, _. split; [exact HS|]. split; [left; reflexivity|].
      split; [|split; [|split; [|split; [|discriminate]]]].
      * split; [intros _|discriminate].
        eexists _, _. split; [exact E1|]. split; [exact E2 | reflexivity].
      * split; [intros _|discriminate]. rewrite Hp1, Hn, Hp2. eauto.
      * split; [intros _; exact HA|discriminate].
      * intros _. apply (patches_in_place hook old1 old2 r w Hm).
  - rewrite E1 in HA. rewrite HA in HS.
    eexists 0, _. split; [exact HS|]. split; [right; reflexivity|].
    split; [|split; [|split; [|split; [intros []; reflexivity | reflexivity]]]];
      (split; [intros []; reflexivity|]).
    + intros (w1 & w2 & Ha & _). rewrite E1 in Ha. discriminate.
    + intros ([x Hx] & _). congruence.
    + rewrite HA. discriminate.
Qed.

(** ** The protection guard *)

Lemma protections_kept_eq w w' : pages w' = pages w -> protections_kept w w'.
Proof. intros E p a b Ha Hb. rewrite E in Hb. congruence. Qed.

Lemma lookup_foldr_delete_Some (m : gmap Z Z) (ps : list Z) p pr :
  foldr (fun q m => delete q m) m ps !! p = Some pr -> m !! p = Some pr.
Proof.
  induction ps as [|q ps IH]; cbn [foldr]; [auto|].
  intros H. apply lookup_delete_Some in H as [_ H]. auto.
Qed.

Lemma reverted_miss addr size snap w :
  pages w !! page_of addr = None ->
  reverted addr size snap w = add_event (EvProtect addr size PAGE_EXECUTE_READWRITE false) w.
Proof. intros H. unfold reverted. now rewrite H. Qed.

Lemma reverted_hit addr size snap w old :
  pages w !! page_of addr = Some old ->
  trace (reverted addr size snap w) =
    trace w ++ [EvProtect addr size PAGE_EXECUTE_READWRITE true;
                EvStore addr (resize (Z.to_nat size) 0 snap);
                EvProtect addr size old true] /\
  mem (reverted addr size snap w) = store_bytes (mem w) addr (resize (Z.to_nat size) 0 snap).
Proof. intros H. unfold reverted. rewrite H. split; reflexivity. Qed.

Lemma released_spec w :
  mem (released w) = mem w /\
  g_fileHookTrampoline (released w) = NULL /\
  (forall p pr, pages (released w) !! p = Some pr -> pages w !! p = Some pr) /\
  (g_fileHookTrampoline w <> NULL -> allocs (released w) !! g_fileHookTrampoline w = None) /\
  g_mutexOriginalBytes (released w) = g_mutexOriginalBytes w /\
  g_fileOriginalBytes (released w) = g_fileOriginalBytes w /\
  g_originalOpenDataFile (released w) = g_originalOpenDataFile w /\
  (exists evs, trace (released w) = trace w ++ evs /\ store_order evs = []).
Proof.
  unfold released. cbv zeta.
  destruct (Z.eqb_spec (g_fileHookTrampoline w) NULL) as [E|E].
  - repeat split; auto; try contradiction.
    exists []. split; [now rewrite app_nil_r | reflexivity].
  - destruct (allocs w !! g_fileHookTrampoline w) as [size|] eqn:Ha; cbn.
    + repeat split; auto.
      * intros p pr. apply lookup_foldr_delete_Some.
      * intros _. apply lookup_delete_eq.
      * eexists. split; reflexivity.
    + repeat split; auto.
      eexists. split; reflexivity.
Qed.

Lemma removed_pages w p pr :
  pages (removed w) !! p = Some pr -> pages w !! p = Some pr.
Proof.
  unfold removed. intros H.
  change (pages (set_g_hooksInstalled false ?x)) with (pages x) in H.
  destruct (released_spec
              (reverted CLBLOCKALLOCATOR_OPENDATAFILE_ADDR 32 (g_fileOriginalBytes w)
                 (reverted CLIENT_ISALREADYRUNNING_ADDR 16 (g_mutexOriginalBytes w) w)))
    as (_ & _ & Hpg & _).
  apply Hpg in H.
  destruct (reverted_globals CLBLOCKALLOCATOR_OPENDATAFILE_ADDR 32 (g_fileOriginalBytes w)
              (reverted CLIENT_ISALREADYRUNNING_ADDR 16 (g_mutexOriginalBytes w) w))
    as (E2 & _).
  destruct (reverted_globals CLIENT_ISALREADYRUNNING_ADDR 16 (g_mutexOriginalBytes w) w)
    as (E1 & _).
  cbv zeta in E1, E2. rewrite E2, E1 in H. exact H.
Qed.

Lemma removed_mem w :
  mem (removed w) =
  mem (reverted CLBLOCKALLOCATOR_OPENDATAFILE_ADDR 32 (g_fileOriginalBytes w)
         (reverted CLIENT_ISALREADYRUNNING_ADDR 16 (g_mutexOriginalBytes w) w)).
Proof.
  unfold removed.
  change (mem (set_g_hooksInstalled false ?x)) with (mem x).
  apply released_spec.
Qed.

Lemma reverted_window_other addr size snap w b n :
  b + Z.of_nat n <= addr \/ addr + size <= b -> 0 <= size ->
  load_bytes (mem (reverted addr size snap w)) b n = load_bytes (mem w) b n.
Proof.
  intros H Hs. unfold reverted. destruct (pages w !! page_of addr); [|reflexivity].
  cbn [mem]. apply load_store_disjoint. rewrite length_resize, Z2Nat.id by exact Hs. exact H.
Qed.

(** C8. The guard in the three operations. InstallMutexHook and
    InstallFileHook leave each target page with the protection it had: the
    acquisition, when it succeeds, is followed on the single path to the
    return by the restoring call (no step in between can fault). When the
    acquisition fails the function returns FALSE without a store: for the
    mutex hook the world is unchanged but for the logged call; for the file
    hook the block is released again and no byte of the host, nor the state
    of the mutex patch, is touched. RemoveAllHooks changes the protection of
    no page, skips exactly the window whose acquisition failed, and after a
    complete install gives back the page table the install started from. *)
Theorem guard_restores_protection (hook : Z) (w : World) :
  (exists ok w',
     InstallMutexHook w = Ret ok w' /\ pages w' = pages w /\
     (ok = true <-> is_Some (pages w !! MUTEX_PAGE)) /\
     (ok = true -> exists old,
        pages w !! MUTEX_PAGE = Some old /\
        trace w' = trace w ++
          [EvProtect CLIENT_ISALREADYRUNNING_ADDR 16 PAGE_EXECUTE_READWRITE true;
           EvStore CLIENT_ISALREADYRUNNING_ADDR [0x31; 0xC0; 0xC3];
           EvProtect CLIENT_ISALREADYRUNNING_ADDR 16 old true]) /\
     (ok = false ->
        w' = add_event
               (EvProtect CLIENT_ISALREADYRUNNING_ADDR 16 PAGE_EXECUTE_READWRITE false) w)) /\
  (exists ok w',
     InstallFileHook hook w = Ret ok w' /\
     protections_kept w w' /\
     pages w' !! MUTEX_PAGE = pages w !! MUTEX_PAGE /\
     pages w' !! FILE_PAGE = pages w !! FILE_PAGE /\
     (ok = true -> exists old,
        pages w !! FILE_PAGE = Some old /\
        last (trace w') = Some (EvProtect CLBLOCKALLOCATOR_OPENDATAFILE_ADDR 32 old true)) /\
     (is_Some (next_block w) -> pages w !! FILE_PAGE = None ->
        ok = false /\ pages w' = pages w /\ (forall a, peek w' a = peek w a) /\
        load_bytes (mem w') CLIENT_ISALREADYRUNNING_ADDR 16 =
          load_bytes (mem w) CLIENT_ISALREADYRUNNING_ADDR 16 /\
        g_mutexOriginalBytes w' = g_mutexOriginalBytes w /\
        g_hooksInstalled w' = g_hooksInstalled w)) /\
  (exists w',
     RemoveAllHooks w = Ret tt w' /\
     protections_kept w w' /\
     (g_hooksInstalled w = true -> pages w !! MUTEX_PAGE = None ->
        load_bytes (mem w') CLIENT_ISALREADYRUNNING_ADDR 16 =
          load_bytes (mem w) CLIENT_ISALREADYRUNNING_ADDR 16) /\
     (g_hooksInstalled w = true -> pages w !! FILE_PAGE = None ->
        load_bytes (mem w') CLBLOCKALLOCATOR_OPENDATAFILE_ADDR 32 =
          load_bytes (mem w) CLBLOCKALLOCATOR_OPENDATAFILE_ADDR 32) /\
     (forall w0, InstallAllHooks hook w0 = Ret true w -> pages w' = pages w0)).
Proof.
  split; [|split].
  - destruct (InstallMutexHook_cases w) as [(old & Hp & E)|(Hp & E)].
    + exists true, (mutex_patched old w). split; [exact E|]. split; [reflexivity|].
      split; [split; [intros _; rewrite Hp; eauto | reflexivity]|].
      split; [intros _; exists old; split; [exact Hp | reflexivity] | discriminate].
    + eexists false, _. split; [exact E|]. split; [reflexivity|].
      split; [split; [discriminate | intros [x Hx]; congruence]|].
      split; [discriminate | reflexivity].
  - destruct (InstallFileHook_cases hook w)
      as [(Hn & E)|[(r & Hn & Hp & E)|(r & old & Hn & Hp & E)]].
    + eexists false, _. split; [exact E|].
      split; [apply protections_kept_eq; reflexivity|].
      split; [reflexivity|]. split; [reflexivity|]. split; [discriminate|].
      intros [x Hx]. congruence.
    + destruct (next_block_Some w r Hn) as [_ Hv].
      destruct (valid_base_inv w r Hv) as (_ & _ & Hm & _).
      eexists false, _. split; [exact E|].
      split; [apply protections_kept_eq; reflexivity|].
      split; [reflexivity|]. split; [reflexivity|]. split; [discriminate|].
      intros _ _. split; [reflexivity|]. split; [reflexivity|].
      split; [apply file_denied_peek, Hv|].
      split; [|split; reflexivity].
      apply load_zero_disjoint. pose proof (block_disjoint_mutex r Hm).
      cbn [Z.of_nat Pos.of_succ_nat Pos.succ]. lia.
    + destruct (next_block_Some w r Hn) as [_ Hv].
      destruct (valid_base_inv w r Hv) as (_ & _ & Hm & Hfree & _).
      destruct (block_page_not_target r Hm) as [Hne1 Hne2].
      eexists true, _. split; [exact E|]. unfold protections_kept.
      change (pages (file_patched hook old r (tail (va_supply w)) w))
        with (<[page_of r := PAGE_EXECUTE_READWRITE]> (pages w)).
      split.
      { intros p a b Ha Hb. rewrite lookup_insert_ne in Hb by congruence. congruence. }
      split; [apply lookup_insert_ne, Hne1|]. split; [apply lookup_insert_ne, Hne2|].
      split; [|intros _ Hp'; congruence].
      intros _. exists old. split; [exact Hp|].
      unfold file_patched. cbn [trace]. rewrite last_app. reflexivity.
  - destruct (g_hooksInstalled w) eqn:Hf.
    + exists (removed w). split; [apply RemoveAllHooks_installed, Hf|].
      split.
      { intros p a b Ha Hb. apply removed_pages in Hb. congruence. }
      split; [|split].
      * intros _ Hp. rewrite removed_mem.
        rewrite reverted_window_other by addr_lia.
        rewrite reverted_miss by exact Hp. reflexivity.
      * intros _ Hp. rewrite removed_mem.
        destruct (reverted_globals CLIENT_ISALREADYRUNNING_ADDR 16 (g_mutexOriginalBytes w) w)
          as (E1 & _). cbv zeta in E1.
        rewrite reverted_miss by (rewrite E1; exact Hp).
        change (mem (add_event ?e ?x)) with (mem x).
        apply reverted_window_other; addr_lia.
      * intros w0 H0.
        apply InstallAllHooks_true_inv in H0
          as (old1 & r & old2 & Hp1 & Hn & Hp2 & _ & _ & ->).
        fold (installed_world hook old1 old2 r w0).
        rewrite removed_installed by assumption. reflexivity.
    + exists w. split; [apply RemoveAllHooks_idle, Hf|].
      split; [apply protections_kept_eq; reflexivity|].
      split; [discriminate|]. split; [discriminate|].
      intros w0 H0.
      apply InstallAllHooks_true_inv in H0 as (old1 & r & old2 & _ & _ & _ & _ & _ & ->).
      discriminate.
Qed.

(** A refused acquisition in InstallFileHook on the concrete host. *)
Lemma guard_restores_protection_witness :
  is_Some (next_block demo_world_nofile) /\
  pages demo_world_nofile !! FILE_PAGE = None /\
  exists w',
    InstallFileHook demo_hook demo_world_nofile = Ret false w' /\
    pages w' = pages demo_world_nofile /\
    forall a, peek w' a = peek demo_world_nofile a.
Proof.
  assert (Hn : is_Some (next_block demo_world_nofile)) by (eexists; reflexivity).
  split; [exact Hn|]. split; [reflexivity|].
  destruct (guard_restores_protection demo_hook demo_world_nofile)
    as (_ & (ok & w' & E & _ & _ & _ & _ & Hden) & _).
  destruct (Hden Hn eq_refl) as (-> & Hp & Hk & _).
  exists w'. split; [exact E|]. split; [exact Hp | exact Hk].
Defined.

(** ** Partial install, and the order of the restores *)

Lemma reverted_trace addr size snap w :
  exists evs,
    trace (reverted addr size snap w) = trace w ++ evs /\
    store_order evs = match pages w !! page_of addr with
                      | Some _ => [addr]
                      | None => []
                      end.
Proof.
  unfold reverted. destruct (pages w !! page_of addr); eexists; split; reflexivity.
Qed.

(** C1, as stated, fails: on a host whose file target cannot be made
    writable, InstallAllHooks returns FALSE with the mutex patch applied,
    and RemoveAllHooks then returns without touching memory, so the target
    still reads 31 C0 C3 and not the original 55 8B EC. *)
Lemma partial_install_counterexample :
  InstallMutexHook demo_world_nofile =
    Ret true (mutex_patched PAGE_EXECUTE_READ demo_world_nofile) /\
  InstallFileHook demo_hook (mutex_patched PAGE_EXECUTE_READ demo_world_nofile) =
    Ret false partial_world /\
  InstallAllHooks demo_hook demo_world_nofile = Ret false partial_world /\
  g_hooksInstalled partial_world = false /\
  RemoveAllHooks partial_world = Ret tt partial_world /\
  load_bytes (mem demo_world_nofile) CLIENT_ISALREADYRUNNING_ADDR 3 = [0x55; 0x8B; 0xEC] /\
  load_bytes (mem partial_world) CLIENT_ISALREADYRUNNING_ADDR 3 = [0x31; 0xC0; 0xC3] /\
  load_bytes (mem partial_world) CLIENT_ISALREADYRUNNING_ADDR 16 <>
    load_bytes (mem demo_world_nofile) CLIENT_ISALREADYRUNNING_ADDR 16.
Proof.
  repeat split; try reflexivity.
  intros H. vm_compute in H. discriminate.
Qed.

(** C1, amended. If InstallMutexHook succeeds and InstallFileHook then
    fails, InstallAllHooks returns FALSE and leaves the flag clear; the mutex
    target holds the patch, the saved copy still holds the original window,
    and no trampoline handle is kept. RemoveAllHooks, called next, sees the
    clear flag and returns the world unchanged: the patch stays. *)
Theorem partial_install_keeps_first_patch (hook : Z) (w w1 w2 : World) :
  g_hooksInstalled w = false ->
  InstallMutexHook w = Ret true w1 ->
  InstallFileHook hook w1 = Ret false w2 ->
  InstallAllHooks hook w = Ret false w2 /\
  g_hooksInstalled w2 = false /\
  load_bytes (mem w2) CLIENT_ISALREADYRUNNING_ADDR 16 =
    [0x31; 0xC0; 0xC3] ++ load_bytes (mem w) (CLIENT_ISALREADYRUNNING_ADDR + 3) 13 /\
  g_mutexOriginalBytes w2 = load_bytes (mem w) CLIENT_ISALREADYRUNNING_ADDR 16 /\
  g_fileHookTrampoline w2 = NULL /\
  RemoveAllHooks w2 = Ret tt w2.
Proof.
  intros Hf H1 H2.
  assert (HA : InstallAllHooks hook w = Ret false w2)
    by (rewrite InstallAllHooks_unfold, H1, H2; reflexivity).
  apply InstallMutexHook_true_inv in H1 as (old & Hp & ->).
  assert (Hw : load_bytes (mem w2) CLIENT_ISALREADYRUNNING_ADDR 16 =
               load_bytes (mem (mutex_patched old w)) CLIENT_ISALREADYRUNNING_ADDR 16 /\
               g_hooksInstalled w2 = false /\
               g_mutexOriginalBytes w2 = load_bytes (mem w) CLIENT_ISALREADYRUNNING_ADDR 16 /\
               g_fileHookTrampoline w2 = NULL).
  { apply InstallFileHook_false_inv in H2 as [(_ & ->)|(r & Hn & _ & ->)].
    - repeat split. exact Hf.
    - destruct (next_block_Some _ r Hn) as [_ Hv].
      destruct (valid_base_inv _ r Hv) as (_ & _ & Hm & _).
      pose proof (block_disjoint_mutex r Hm).
      split; [|repeat split; exact Hf].
      apply load_zero_disjoint. cbn [Z.of_nat Pos.of_succ_nat Pos.succ]. lia. }
  destruct Hw as (Hw & Hf2 & Hs & Ht).
  split; [exact HA|]. split; [exact Hf2|].
  split; [rewrite Hw; apply mutex_window_patched|].
  split; [exact Hs|]. split; [exact Ht|].
  apply RemoveAllHooks_idle, Hf2.
Qed.

Lemma partial_install_keeps_first_patch_witness :
  g_hooksInstalled demo_world_nofile = false /\
  InstallAllHooks demo_hook demo_world_nofile = Ret false partial_world /\
  RemoveAllHooks partial_world = Ret tt partial_world.
Proof.
  split; [reflexivity|].
  destruct (partial_install_keeps_first_patch demo_hook demo_world_nofile
              (mutex_patched PAGE_EXECUTE_READ demo_world_nofile) partial_world
              eq_refl eq_refl eq_refl)
    as (H1 & _ & _ & _ & _ & H2).
  split; [exact H1 | exact H2].
Defined.

(** C3, as stated, fails on the order: after a complete install,
    RemoveAllHooks stores to the mutex target first and to the file target
    second, which is the order of installation, not its reverse. *)
Lemma uninstall_order_counterexample :
  InstallAllHooks demo_hook demo_world = Ret true demo_installed /\
  store_order (drop (length (trace demo_world)) (trace demo_installed)) =
    [CLIENT_ISALREADYRUNNING_ADDR; 0x00A50000; 0x00A50005; 0x00A50006;
     CLBLOCKALLOCATOR_OPENDATAFILE_ADDR] /\
  g_hooksInstalled demo_installed = true /\
  RemoveAllHooks demo_installed = Ret tt demo_uninstalled /\
  store_order (drop (length (trace demo_installed)) (trace demo_uninstalled)) =
    [CLIENT_ISALREADYRUNNING_ADDR; CLBLOCKALLOCATOR_OPENDATAFILE_ADDR] /\
  store_order (drop (length (trace demo_installed)) (trace demo_uninstalled)) <>
    [CLBLOCKALLOCATOR_OPENDATAFILE_ADDR; CLIENT_ISALREADYRUNNING_ADDR].
Proof.
  repeat split; try reflexivity.
  intros H. vm_compute in H. discriminate.
Qed.

(** C3, amended. With the flag set, RemoveAllHooks always returns; its
    stores go to the mutex target first and the file target second (the
    order of installation), each made only when that target's page is
    committed and then writing the saved window back; it releases the
    trampoline block when the handle is not NULL, leaves the handle NULL and
    clears the flag. *)
Theorem uninstall_order (w : World) :
  g_hooksInstalled w = true ->
  exists w' evs,
    RemoveAllHooks w = Ret tt w' /\
    trace w' = trace w ++ evs /\
    store_order evs =
      match pages w !! MUTEX_PAGE with
      | Some _ => [CLIENT_ISALREADYRUNNING_ADDR]
      | None => []
      end ++
      match pages w !! FILE_PAGE with
      | Some _ => [CLBLOCKALLOCATOR_OPENDATAFILE_ADDR]
      | None => []
      end /\
    (is_Some (pages w !! MUTEX_PAGE) -> is_Some (pages w !! FILE_PAGE) ->
       store_order evs = [CLIENT_ISALREADYRUNNING_ADDR; CLBLOCKALLOCATOR_OPENDATAFILE_ADDR]) /\
    (is_Some (pages w !! MUTEX_PAGE) ->
       load_bytes (mem w') CLIENT_ISALREADYRUNNING_ADDR 16 =
         resize 16 0 (g_mutexOriginalBytes w)) /\
    (is_Some (pages w !! FILE_PAGE) ->
       load_bytes (mem w') CLBLOCKALLOCATOR_OPENDATAFILE_ADDR 32 =
         resize 32 0 (g_fileOriginalBytes w)) /\
    g_fileHookTrampoline w' = NULL /\
    (g_fileHookTrampoline w <> NULL -> allocs w' !! g_fileHookTrampoline w = None) /\
    g_hooksInstalled w' = false.
Proof.
  intros Hf.
  set (w1 := reverted CLIENT_ISALREADYRUNNING_ADDR 16 (g_mutexOriginalBytes w) w).
  set (w2 := reverted CLBLOCKALLOCATOR_OPENDATAFILE_ADDR 32 (g_fileOriginalBytes w) w1).
  destruct (reverted_globals CLIENT_ISALREADYRUNNING_ADDR 16 (g_mutexOriginalBytes w) w)
    as (Ep1 & _ & _ & _ & _ & _ & Eg1 & _).
  destruct (reverted_globals CLBLOCKALLOCATOR_OPENDATAFILE_ADDR 32 (g_fileOriginalBytes w) w1)
    as (Ep2 & _ & _ & _ & _ & _ & Eg2 & _).
  cbv zeta in Ep1, Eg1, Ep2, Eg2. fold w1 in Ep1, Eg1. fold w2 in Ep2, Eg2.
  destruct (reverted_trace CLIENT_ISALREADYRUNNING_ADDR 16 (g_mutexOriginalBytes w) w)
    as (ev1 & Et1 & Es1).
  destruct (reverted_trace CLBLOCKALLOCATOR_OPENDATAFILE_ADDR 32 (g_fileOriginalBytes w) w1)
    as (ev2 & Et2 & Es2).
  fold w1 in Et1. fold w2 in Et2. rewrite Ep1 in Es2.
  destruct (released_spec w2) as (Em & Eh & _ & Ea & _ & _ & _ & ev3 & Et3 & Es3).
  exists (removed w), (ev1 ++ ev2 ++ ev3).
  assert (Hso : store_order (ev1 ++ ev2 ++ ev3) =
                match pages w !! MUTEX_PAGE with
                | Some _ => [CLIENT_ISALREADYRUNNING_ADDR]
                | None => []
                end ++
                match pages w !! FILE_PAGE with
                | Some _ => [CLBLOCKALLOCATOR_OPENDATAFILE_ADDR]
                | None => []
                end).
  { unfold store_order in *. rewrite !omap_app, Es1, Es2, Es3, app_nil_r. reflexivity. }
  split; [apply RemoveAllHooks_installed, Hf|].
  split.
  { unfold removed. fold w1. fold w2.
    change (trace (set_g_hooksInstalled false ?x)) with (trace x).
    rewrite Et3, Et2, Et1, <- !app_assoc. reflexivity. }
  split; [exact Hso|].
  split.
  { intros [a Ha] [b Hb]. rewrite Hso, Ha, Hb. reflexivity. }
  split.
  { intros [a Ha]. rewrite removed_mem. fold w1.
    rewrite reverted_window_other by addr_lia.
    destruct (reverted_hit CLIENT_ISALREADYRUNNING_ADDR 16 (g_mutexOriginalBytes w) w a Ha)
      as [_ Hmem].
    fold w1 in Hmem. rewrite Hmem.
    apply load_store_same_n, length_resize. }
  split.
  { intros [b Hb]. rewrite removed_mem. fold w1.
    assert (Hb1 : pages w1 !! page_of CLBLOCKALLOCATOR_OPENDATAFILE_ADDR = Some b)
      by (rewrite Ep1; exact Hb).
    destruct (reverted_hit CLBLOCKALLOCATOR_OPENDATAFILE_ADDR 32 (g_fileOriginalBytes w) w1 b Hb1)
      as [_ Hmem].
    rewrite Hmem. apply load_store_same_n, length_resize. }
  split; [exact Eh|].
  split; [|reflexivity].
  intros Hg. unfold removed. fold w1. fold w2.
  change (allocs (set_g_hooksInstalled false ?x)) with (allocs x).
  rewrite <- Eg1, <- Eg2. apply Ea. rewrite Eg2, Eg1. exact Hg.
Qed.

Lemma uninstall_order_witness :
  g_hooksInstalled demo_installed = true /\
  exists w' evs,
    RemoveAllHooks demo_installed = Ret tt w' /\
    trace w' = trace demo_installed ++ evs /\
    store_order evs = [CLIENT_ISALREADYRUNNING_ADDR; CLBLOCKALLOCATOR_OPENDATAFILE_ADDR].
Proof.
  split; [reflexivity|].
  destruct (uninstall_order demo_installed eq_refl)
    as (w' & evs & H1 & H2 & _ & H3 & _).
  exists w', evs. split; [exact H1|]. split; [exact H2|].
  apply H3; eexists; reflexivity.
Defined.

(** ** Totality of the teardown *)

Lemma RemoveAllHooks_returns w : exists w', RemoveAllHooks w = Ret tt w'.
Proof.
  destruct (g_hooksInstalled w) eqn:Hf.
  - exists (removed w). apply RemoveAllHooks_installed, Hf.
  - exists w. apply RemoveAllHooks_idle, Hf.
Qed.

(** DllMain returns TRUE for every notification and from every world. *)
Lemma DllMain_returns hModule reason lpReserved w :
  exists w', DllMain hModule reason lpReserved w = Ret true w'.
Proof.
  unfold DllMain. rewrite run_bind.
  destruct (reason =? DLL_PROCESS_ATTACH); [eexists; reflexivity|].
  destruct (reason =? DLL_PROCESS_DETACH); [|eexists; reflexivity].
  destruct (RemoveAllHooks_returns w) as [w' E]. rewrite E. eexists. reflexivity.
Qed.

(** * Further properties of the code *)

(** ** OpenDataFile_Hook *)

Lemma lor4_testbit flags n :
  0 <= n -> Z.testbit (Z.lor flags 0x4) n = if n =? 2 then true else Z.testbit flags n.
Proof.
  intros Hn. rewrite Z.lor_spec.
  destruct (Z.eqb_spec n 2) as [->|Hne].
  - apply orb_true_r.
  - change 4 with (2 ^ 2). rewrite (Z.pow2_bits_false 2 n) by congruence.
    apply orb_false_r.
Qed.

Lemma lor4_range flags : 0 <= flags < 2 ^ 32 -> 0 <= Z.lor flags 0x4 < 2 ^ 32.
Proof.
  intros [H0 H1].
  assert (Hnn : 0 <= Z.lor flags 4) by (apply Z.lor_nonneg; lia).
  split; [exact Hnn|].
  destruct (Z.eq_dec (Z.lor flags 4) 0) as [->|Hz]; [lia|].
  apply Z.log2_lt_pow2; [lia|].
  rewrite Z.log2_lor by lia.
  apply Z.max_lub_lt.
  - destruct (Z.eq_dec flags 0) as [->|Hf]; [cbn; lia|].
    apply Z.log2_lt_pow2; lia.
  - cbn. lia.
Qed.

(** X1. OpenDataFile_Hook changes nothing in the world. With a NULL
    original-function pointer it returns 0 and calls nothing; otherwise it
    calls the pointer with the arguments it was given, except that bit 2 of
    openFlags is set: every other bit is as passed, flags that already had
    the bit are unchanged, and a 32-bit value stays a 32-bit value. *)
Theorem hook_sets_share_flag
    (thisPtr unused_edx pFileInfo pFileName pcPathToUse openFlags pTranInfo : Z)
    (w : World) :
  exists e,
    OpenDataFile_Hook_body thisPtr unused_edx pFileInfo pFileName pcPathToUse
      openFlags pTranInfo w = Ret e w /\
    (g_originalOpenDataFile w = NULL -> e = ReturnValue 0) /\
    (g_originalOpenDataFile w <> NULL ->
     exists flags',
       e = CallOriginal (g_originalOpenDataFile w) thisPtr pFileInfo pFileName
             pcPathToUse flags' pTranInfo /\
       Z.testbit flags' 2 = true /\
       (forall n, 0 <= n -> n <> 2 -> Z.testbit flags' n = Z.testbit openFlags n) /\
       (Z.testbit openFlags 2 = true -> flags' = openFlags) /\
       (0 <= openFlags < 2 ^ 32 -> 0 <= flags' < 2 ^ 32)).
Proof.
  unfold OpenDataFile_Hook_body. cbv zeta. rewrite run_get. cbv beta.
  destruct (Z.eqb_spec (g_originalOpenDataFile w) NULL) as [E|E]; cbn [negb].
  - eexists. split; [reflexivity|]. split; [reflexivity | contradiction].
  - eexists. split; [reflexivity|]. split; [contradiction|].
    intros _. exists (Z.lor openFlags 0x4). split; [reflexivity|].
    split; [rewrite lor4_testbit by lia; reflexivity|].
    split.
    { intros n Hn Hne. rewrite lor4_testbit by exact Hn.
      destruct (Z.eqb_spec n 2); [contradiction | reflexivity]. }
    split; [|apply lor4_range].
    intros Hb. apply Z.bits_inj'. intros n Hn. rewrite lor4_testbit by exact Hn.
    destruct (Z.eqb_spec n 2) as [->|]; [symmetry; exact Hb | reflexivity].
Qed.

Lemma hookOffset_lands d A :
  add32 (add32 (wrap32 A) 5) (hookOffset d A) = wrap32 d.
Proof. unfold hookOffset. rewrite add32_sub32. apply wrap32_idemp. Qed.

Lemma hookOffset_range d A : 0 <= hookOffset d A < 2 ^ 32.
Proof. apply wrap32_range. Qed.

Lemma jmp_target_bytes m a off :
  load_bytes m a 5 = 0xE9 :: le32 off -> 0 <= off < 2 ^ 32 ->
  jmp_target m a = Some (add32 (add32 a 5) off).
Proof.
  intros H Ho.
  change (load_bytes m a 5) with (m a :: load_bytes m (a + 1) 4) in H.
  pose proof (f_equal (hd 0) H) as H0. pose proof (f_equal (@tail Z) H) as H1.
  cbn [hd tail] in H0, H1. unfold jmp_target.
  rewrite H0, H1, of_le32_le32 by exact Ho. reflexivity.
Qed.

Lemma file_patched_jumps hook old r rest w :
  valid_base w r 32 = true ->
  let w1 := file_patched hook old r rest w in
  jmp_target (mem w1) CLBLOCKALLOCATOR_OPENDATAFILE_ADDR = Some (wrap32 hook) /\
  jmp_target (mem w1) (r + 5) = Some (CLBLOCKALLOCATOR_OPENDATAFILE_ADDR + 5) /\
  load_bytes (mem w1) r 5 = load_bytes (mem w) CLBLOCKALLOCATOR_OPENDATAFILE_ADDR 5 /\
  pages w1 !! page_of r = Some PAGE_EXECUTE_READWRITE.
Proof.
  intros Hv. destruct (valid_base_inv w r Hv) as (H0 & Hle & Hm & _).
  pose proof (block_disjoint_file r Hm) as Hd.
  destruct (trampoline_contents (mem w) r) as (T1 & T2 & T3).
  cbv zeta. cbn [file_patched mem pages].
  split; [|split; [|split]].
  - rewrite (jmp_target_bytes _ _ (hookOffset hook CLBLOCKALLOCATOR_OPENDATAFILE_ADDR)).
    + f_equal. apply (hookOffset_lands hook CLBLOCKALLOCATOR_OPENDATAFILE_ADDR).
    + apply load_store_same_n. reflexivity.
    + apply hookOffset_range.
  - rewrite (jmp_target_bytes _ _ (jumpOffset CLBLOCKALLOCATOR_OPENDATAFILE_ADDR (r + 5))).
    + f_equal.
      rewrite <- (wrap32_small (r + 5)) at 1
        by (change (2 ^ 32) with 4294967296 in *; lia).
      rewrite jumpOffset_lands. reflexivity.
    + rewrite load_store_disjoint by addr_lia.
      change (load_bytes ?m (r + 5) 5)
        with (load_bytes m (r + 5) 1 ++ load_bytes m (r + 5 + 1) 4).
      rewrite T2, T3. reflexivity.
    + apply jumpOffset_range.
  - rewrite load_store_disjoint by addr_lia. exact T1.
  - apply lookup_insert_eq.
Qed.

(** X2. After a successful InstallAllHooks the call chain is closed: the
    bytes at the file target decode as a jump to the replacement function;
    the replacement function calls the trampoline base with bit 2 of
    openFlags set; the trampoline lies on a committed page with protection
    PAGE_EXECUTE_READWRITE, starts with the five bytes the target had before
    the install, and continues with a jump that decodes to target + 5. *)
Theorem hook_call_chain
    (hook thisPtr unused_edx pFileInfo pFileName pcPathToUse openFlags pTranInfo : Z)
    (w w1 : World) :
  InstallAllHooks hook w = Ret true w1 ->
  let t := g_fileHookTrampoline w1 in
  jmp_target (mem w1) CLBLOCKALLOCATOR_OPENDATAFILE_ADDR = Some (wrap32 hook) /\
  OpenDataFile_Hook_body thisPtr unused_edx pFileInfo pFileName pcPathToUse
    openFlags pTranInfo w1 =
    Ret (CallOriginal t thisPtr pFileInfo pFileName pcPathToUse
           (Z.lor openFlags 0x4) pTranInfo) w1 /\
  pages w1 !! page_of t = Some PAGE_EXECUTE_READWRITE /\
  load_bytes (mem w1) t 5 = load_bytes (mem w) CLBLOCKALLOCATOR_OPENDATAFILE_ADDR 5 /\
  jmp_target (mem w1) (t + 5) = Some (CLBLOCKALLOCATOR_OPENDATAFILE_ADDR + 5).
Proof.
  intros H.
  apply InstallAllHooks_true_inv in H as (old1 & r & old2 & Hp1 & Hn & Hp2 & _ & _ & ->).
  destruct (next_block_Some w r Hn) as [_ Hv].
  destruct (valid_base_inv w r Hv) as (H0 & _).
  assert (Hv' : valid_base (mutex_patched old1 w) r 32 = true) by exact Hv.
  destruct (file_patched_jumps hook old2 r (tail (va_supply w)) (mutex_patched old1 w) Hv')
    as (J1 & J2 & J3 & J4).
  cbv zeta in J1, J2, J3, J4. cbv zeta.
  change (g_fileHookTrampoline (set_g_hooksInstalled true ?x)) with (g_fileHookTrampoline x).
  change (mem (set_g_hooksInstalled true ?x)) with (mem x).
  change (pages (set_g_hooksInstalled true ?x)) with (pages x).
  change (g_fileHookTrampoline (file_patched hook old2 r (tail (va_supply w))
                                  (mutex_patched old1 w))) with r.
  split; [exact J1|]. split.
  { unfold OpenDataFile_Hook_body. cbv zeta. rewrite run_get. cbv beta.
    change (g_originalOpenDataFile (set_g_hooksInstalled true
              (file_patched hook old2 r (tail (va_supply w)) (mutex_patched old1 w))))
      with r.
    destruct (Z.eqb_spec r NULL) as [E|_]; [unfold NULL in E; lia | reflexivity]. }
  split; [exact J4|]. split; [|exact J2].
  rewrite J3. apply load_store_disjoint. addr_lia.
Qed.

Lemma hook_call_chain_witness :
  InstallAllHooks demo_hook demo_world = Ret true demo_installed /\
  jmp_target (mem demo_installed) CLBLOCKALLOCATOR_OPENDATAFILE_ADDR = Some demo_hook /\
  jmp_target (mem demo_installed) (0x00A50000 + 5) =
    Some (CLBLOCKALLOCATOR_OPENDATAFILE_ADDR + 5).
Proof.
  split; [reflexivity|].
  destruct (hook_call_chain demo_hook 1 2 3 4 5 0x80000000 7 demo_world demo_installed eq_refl)
    as (H1 & _ & _ & _ & H2).
  split; [exact H1 | exact H2].
Defined.

(** X3. RemoveAllHooks does not reset the original-function pointer. After
    a successful install and the uninstall that follows, g_originalOpenDataFile
    still holds the base of the released trampoline block, no page is
    committed there any more, and OpenDataFile_Hook would still call that
    address. *)
Theorem original_pointer_dangles
    (hook thisPtr unused_edx pFileInfo pFileName pcPathToUse openFlags pTranInfo : Z)
    (w w1 : World) :
  InstallAllHooks hook w = Ret true w1 ->
  exists w2,
    RemoveAllHooks w1 = Ret tt w2 /\
    g_fileHookTrampoline w2 = NULL /\
    g_originalOpenDataFile w2 = g_fileHookTrampoline w1 /\
    g_originalOpenDataFile w2 <> NULL /\
    allocs w2 !! g_originalOpenDataFile w2 = None /\
    peek w2 (g_originalOpenDataFile w2) = None /\
    OpenDataFile_Hook_body thisPtr unused_edx pFileInfo pFileName pcPathToUse
      openFlags pTranInfo w2 =
      Ret (CallOriginal (g_fileHookTrampoline w1) thisPtr pFileInfo pFileName
             pcPathToUse (Z.lor openFlags 0x4) pTranInfo) w2.
Proof.
  intros H.
  apply InstallAllHooks_true_inv in H as (old1 & r & old2 & Hp1 & Hn & Hp2 & _ & _ & ->).
  fold (installed_world hook old1 old2 r w).
  destruct (next_block_Some w r Hn) as [_ Hv].
  destruct (valid_base_inv w r Hv) as (H0 & _ & _ & Hfree & Hna & _).
  exists (uninstalled_world hook old1 old2 r w).
  split; [apply RemoveAllHooks_installed_world; assumption|].
  change (g_originalOpenDataFile (uninstalled_world hook old1 old2 r w)) with r.
  change (g_fileHookTrampoline (installed_world hook old1 old2 r w)) with r.
  split; [reflexivity|]. split; [reflexivity|].
  split; [unfold NULL; lia|]. split; [exact Hna|].
  split.
  { unfold peek. change (pages (uninstalled_world hook old1 old2 r w)) with (pages w).
    now rewrite Hfree. }
  unfold OpenDataFile_Hook_body. cbv zeta. rewrite run_get. cbv beta.
  change (g_originalOpenDataFile (uninstalled_world hook old1 old2 r w)) with r.
  destruct (Z.eqb_spec r NULL) as [E|_]; [unfold NULL in E; lia | reflexivity].
Qed.

Lemma original_pointer_dangles_witness :
  InstallAllHooks demo_hook demo_world = Ret true demo_installed /\
  RemoveAllHooks demo_installed = Ret tt demo_uninstalled /\
  g_originalOpenDataFile demo_uninstalled = 0x00A50000 /\
  peek demo_uninstalled 0x00A50000 = None.
Proof.
  split; [reflexivity|]. split; [reflexivity|]. split; [reflexivity|].
  destruct (original_pointer_dangles demo_hook 1 2 3 4 5 6 7 demo_world demo_installed eq_refl)
    as (w2 & E & _ & _ & _ & _ & Hp & _).
  assert (E' : RemoveAllHooks demo_installed = Ret tt demo_uninstalled) by reflexivity.
  rewrite E' in E. injection E as <-. exact Hp.
Defined.

(** ** What the install and the uninstall leave alone *)

Lemma store_load_at m m0 a n x :
  a <= x < a + Z.of_nat n -> store_bytes m a (load_bytes m0 a n) x = m0 x.
Proof.
  intros Hx. replace x with (a + Z.of_nat (Z.to_nat (x - a))) by lia.
  apply store_bytes_inside. apply load_bytes_lookup. lia.
Qed.

Lemma trampoline_mem_at m r x :
  x < r \/ r + PAGE_SIZE <= x -> trampoline_mem m r x = m x.
Proof.
  intros Hx. unfold trampoline_mem, PAGE_SIZE in *.
  rewrite !store_bytes_outside;
    [ unfold zero_range;
      destruct (Z.leb_spec r x), (Z.ltb_spec x (r + 4096)); cbn [andb]; try reflexivity; lia
    | rewrite length_load_bytes; lia
    | cbn [length]; lia
    | cbn [length le32]; lia ].
Qed.

Lemma committed_outside_block w r a :
  valid_base w r 32 = true -> is_Some (pages w !! page_of a) ->
  a < r \/ r + PAGE_SIZE <= a.
Proof.
  intros Hv [pr Ha]. destruct (valid_base_inv w r Hv) as (_ & _ & Hm & Hfree & _).
  destruct (Z_lt_dec a r) as [|Hge]; [left; assumption|].
  destruct (Z_le_dec (r + PAGE_SIZE) a) as [|Hlt]; [right; assumption|].
  exfalso. replace a with (r + (a - r)) in Ha by lia.
  rewrite block_page_of in Ha by (try exact Hm; lia). congruence.
Qed.

Lemma InstallAllHooks_false_inv hook w w1 :
  InstallAllHooks hook w = Ret false w1 ->
  (pages w !! MUTEX_PAGE = None /\
   w1 = add_event
          (EvProtect CLIENT_ISALREADYRUNNING_ADDR 16 PAGE_EXECUTE_READWRITE false) w) \/
  (exists old, pages w !! MUTEX_PAGE = Some old /\ next_block w = None /\
               w1 = file_noalloc (mutex_patched old w)) \/
  (exists old r, pages w !! MUTEX_PAGE = Some old /\ next_block w = Some r /\
                 pages w !! FILE_PAGE = None /\
                 w1 = file_denied r (tail (va_supply w)) (mutex_patched old w)).
Proof.
  intros H. rewrite InstallAllHooks_unfold in H.
  destruct (InstallMutexHook_cases w) as [(old & Hp & E1)|(Hp & E1)]; rewrite E1 in H.
  - right.
    destruct (InstallFileHook_cases hook (mutex_patched old w))
      as [(Hn & E2)|[(r & Hn & Hp2 & E2)|(r & old2 & _ & _ & E2)]];
      rewrite E2 in H; try discriminate; injection H as <-.
    + left. exists old. repeat split; assumption.
    + right. exists old, r. repeat split; assumption.
  - left. injection H as <-. split; [exact Hp | reflexivity].
Qed.

(** X4. A successful InstallAllHooks followed by RemoveAllHooks puts the
    whole host back: the page table and the set of live blocks are the ones
    the install started from, and every readable byte of the host, inside
    the two windows and everywhere else, has its old value. *)
Theorem install_uninstall_restores_host (hook : Z) (w w1 : World) :
  InstallAllHooks hook w = Ret true w1 ->
  exists w2,
    RemoveAllHooks w1 = Ret tt w2 /\
    pages w2 = pages w /\
    allocs w2 = allocs w /\
    (forall a, peek w2 a = peek w a).
Proof.
  intros H.
  apply InstallAllHooks_true_inv in H as (old1 & r & old2 & Hp1 & Hn & Hp2 & _ & _ & ->).
  fold (installed_world hook old1 old2 r w).
  destruct (next_block_Some w r Hn) as [_ Hv].
  exists (uninstalled_world hook old1 old2 r w).
  split; [apply RemoveAllHooks_installed_world; assumption|].
  split; [reflexivity|]. split; [reflexivity|].
  intros a. unfold peek.
  change (pages (uninstalled_world hook old1 old2 r w)) with (pages w).
  destruct (pages w !! page_of a) as [pr|] eqn:Ha; [|reflexivity].
  f_equal.
  pose proof (committed_outside_block w r a Hv (ex_intro _ pr Ha)) as Hout.
  unfold uninstalled_world. cbv zeta. cbn [mem installed_world set_g_hooksInstalled
    file_patched mutex_patched].
  destruct (Z_le_dec CLBLOCKALLOCATOR_OPENDATAFILE_ADDR a) as [Hf1|Hf1];
    [destruct (Z_lt_dec a (CLBLOCKALLOCATOR_OPENDATAFILE_ADDR + 32)) as [Hf2|Hf2]|].
  - apply store_load_at. cbn [Z.of_nat Pos.of_succ_nat Pos.succ]. lia.
  - rewrite store_bytes_outside by addr_lia.
    destruct (Z_le_dec CLIENT_ISALREADYRUNNING_ADDR a) as [Hm1|Hm1];
      [destruct (Z_lt_dec a (CLIENT_ISALREADYRUNNING_ADDR + 16)) as [Hm2|Hm2]|].
    + apply store_load_at. cbn [Z.of_nat Pos.of_succ_nat Pos.succ]. lia.
    + rewrite !store_bytes_outside by addr_lia.
      rewrite trampoline_mem_at by exact Hout.
      apply store_bytes_outside. addr_lia.
    + rewrite !store_bytes_outside by addr_lia.
      rewrite trampoline_mem_at by exact Hout.
      apply store_bytes_outside. addr_lia.
  - rewrite store_bytes_outside by addr_lia.
    destruct (Z_le_dec CLIENT_ISALREADYRUNNING_ADDR a) as [Hm1|Hm1];
      [destruct (Z_lt_dec a (CLIENT_ISALREADYRUNNING_ADDR + 16)) as [Hm2|Hm2]|].
    + apply store_load_at. cbn [Z.of_nat Pos.of_succ_nat Pos.succ]. lia.
    + rewrite !store_bytes_outside by addr_lia.
      rewrite trampoline_mem_at by exact Hout.
      apply store_bytes_outside. addr_lia.
    + rewrite !store_bytes_outside by addr_lia.
      rewrite trampoline_mem_at by exact Hout.
      apply store_bytes_outside. addr_lia.
Qed.

Lemma install_uninstall_restores_host_witness :
  InstallAllHooks demo_hook demo_world = Ret true demo_installed /\
  exists w2,
    RemoveAllHooks demo_installed = Ret tt w2 /\
    pages w2 = pages demo_world /\
    forall a, peek w2 a = peek demo_world a.
Proof.
  split; [reflexivity|].
  destruct (install_uninstall_restores_host demo_hook demo_world demo_installed eq_refl)
    as (w2 & H1 & H2 & _ & H3).
  exists w2. split; [exact H1|]. split; [exact H2 | exact H3].
Defined.

(** X5. Whatever InstallAllHooks returns, the only bytes of committed host
    memory it can have changed are the first three of the mutex target and
    the first five of the file target. *)
Theorem install_frame (hook : Z) (w : World) (ok : bool) (w1 : World) :
  InstallAllHooks hook w = Ret ok w1 ->
  forall a,
    is_Some (pages w !! page_of a) ->
    a < CLIENT_ISALREADYRUNNING_ADDR \/ CLIENT_ISALREADYRUNNING_ADDR + 3 <= a ->
    a < CLBLOCKALLOCATOR_OPENDATAFILE_ADDR \/ CLBLOCKALLOCATOR_OPENDATAFILE_ADDR + 5 <= a ->
    mem w1 a = mem w a.
Proof.
  intros H a Hc Hm Hf. destruct ok.
  - apply InstallAllHooks_true_inv in H as (old1 & r & old2 & _ & Hn & _ & _ & _ & ->).
    destruct (next_block_Some w r Hn) as [_ Hv].
    pose proof (committed_outside_block w r a Hv Hc) as Hout.
    cbn [mem set_g_hooksInstalled file_patched mutex_patched].
    rewrite store_bytes_outside by addr_lia.
    rewrite trampoline_mem_at by exact Hout.
    apply store_bytes_outside. addr_lia.
  - apply InstallAllHooks_false_inv in H
      as [(_ & ->)|[(old & _ & _ & ->)|(old & r & _ & Hn & _ & ->)]].
    + reflexivity.
    + cbn [mem file_noalloc mutex_patched]. apply store_bytes_outside. addr_lia.
    + destruct (next_block_Some w r Hn) as [_ Hv].
      pose proof (committed_outside_block w r a Hv Hc) as Hout.
      cbn [mem file_denied mutex_patched]. unfold zero_range.
      destruct (Z.leb_spec r a), (Z.ltb_spec a (r + PAGE_SIZE)); cbn [andb]; try lia;
        apply store_bytes_outside; addr_lia.
Qed.

Lemma install_frame_witness :
  InstallAllHooks demo_hook demo_world = Ret true demo_installed /\
  mem demo_installed (CLIENT_ISALREADYRUNNING_ADDR + 3) =
    mem demo_world (CLIENT_ISALREADYRUNNING_ADDR + 3).
Proof.
  split; [reflexivity|].
  apply (install_frame demo_hook demo_world true demo_installed eq_refl).
  - eexists. reflexivity.
  - right. unfold CLIENT_ISALREADYRUNNING_ADDR. lia.
  - left. unfold CLIENT_ISALREADYRUNNING_ADDR, CLBLOCKALLOCATOR_OPENDATAFILE_ADDR. lia.
Defined.

(** X6 (failed install). When InstallAllHooks returns FALSE, whichever step
    failed, nothing is left allocated and nothing of the file hook has
    happened: page table and live blocks are as before, the file target
    window, its saved copy, the original-function pointer and the flag are
    unchanged, and the call has made no store, or the one store of the
    mutex patch. *)
Theorem failed_install_leaks_nothing (hook : Z) (w w1 : World) :
  InstallAllHooks hook w = Ret false w1 ->
  pages w1 = pages w /\
  allocs w1 = allocs w /\
  g_hooksInstalled w1 = g_hooksInstalled w /\
  g_fileOriginalBytes w1 = g_fileOriginalBytes w /\
  g_originalOpenDataFile w1 = g_originalOpenDataFile w /\
  load_bytes (mem w1) CLBLOCKALLOCATOR_OPENDATAFILE_ADDR 32 =
    load_bytes (mem w) CLBLOCKALLOCATOR_OPENDATAFILE_ADDR 32 /\
  (store_order (drop (length (trace w)) (trace w1)) = [] \/
   store_order (drop (length (trace w)) (trace w1)) = [CLIENT_ISALREADYRUNNING_ADDR]).
Proof.
  intros H.
  apply InstallAllHooks_false_inv in H
    as [(_ & ->)|[(old & _ & _ & ->)|(old & r & _ & Hn & _ & ->)]].
  - do 5 (split; [reflexivity|]). split; [reflexivity|].
    left. cbn [trace add_event]. now rewrite drop_app_length.
  - do 5 (split; [reflexivity|]). split; [apply file_snapshot_after_mutex|].
    right. cbn [trace file_noalloc mutex_patched].
    now rewrite <- app_assoc, drop_app_length.
  - destruct (next_block_Some w r Hn) as [_ Hv].
    destruct (valid_base_inv w r Hv) as (_ & _ & Hm & _).
    pose proof (block_disjoint_file r Hm) as Hd.
    do 5 (split; [reflexivity|]). split.
    + cbn [mem file_denied mutex_patched].
      rewrite load_zero_disjoint by (cbn [Z.of_nat Pos.of_succ_nat Pos.succ]; lia).
      apply file_snapshot_after_mutex.
    + right. cbn [trace file_denied mutex_patched].
      now rewrite <- app_assoc, drop_app_length.
Qed.

Lemma failed_install_leaks_nothing_witness :
  InstallAllHooks demo_hook demo_world_nofile = Ret false partial_world /\
  pages partial_world = pages demo_world_nofile /\
  allocs partial_world = allocs demo_world_nofile.
Proof.
  split; [reflexivity|].
  destruct (failed_install_leaks_nothing demo_hook demo_world_nofile partial_world eq_refl)
    as (H1 & H2 & _).
  split; [exact H1 | exact H2].
Defined.

(** X7 (uninstall from any state). From every world RemoveAllHooks returns
    with the flag clear, so that calling it again returns the world
    unchanged; when the flag was set, the handle is NULL afterwards whether
    or not either window could be made writable. *)
Theorem uninstall_idempotent (w : World) :
  exists w',
    RemoveAllHooks w = Ret tt w' /\
    g_hooksInstalled w' = false /\
    (g_hooksInstalled w = true -> g_fileHookTrampoline w' = NULL) /\
    (g_hooksInstalled w = false -> w' = w) /\
    RemoveAllHooks w' = Ret tt w'.
Proof.
  destruct (g_hooksInstalled w) eqn:Hf.
  - exists (removed w). split; [apply RemoveAllHooks_installed, Hf|].
    split; [reflexivity|]. split.
    { intros _. unfold removed.
      change (g_fileHookTrampoline (set_g_hooksInstalled false ?x))
        with (g_fileHookTrampoline x).
      apply released_spec. }
    split; [discriminate|]. apply RemoveAllHooks_idle. reflexivity.
  - exists w. split; [apply RemoveAllHooks_idle, Hf|]. split; [exact Hf|].
    split; [discriminate|]. split; [reflexivity|]. apply RemoveAllHooks_idle, Hf.
Qed.

(** X8 (first failure ends the install). When the mutex target's page is not
    committed, InstallAllHooks returns FALSE after that one refused
    VirtualProtect: the file hook is not attempted, so no block is requested
    and nothing but the log changes, even on a host where InstallFileHook
    by itself succeeds. HookStartup returns 0 on the same world. *)
Theorem install_stops_at_first_failure (hook : Z) (w : World) :
  pages w !! MUTEX_PAGE = None ->
  InstallAllHooks hook w =
    Ret false
      (add_event (EvProtect CLIENT_ISALREADYRUNNING_ADDR 16 PAGE_EXECUTE_READWRITE false) w) /\
  HookStartup hook w =
    Ret 0
      (add_event (EvProtect CLIENT_ISALREADYRUNNING_ADDR 16 PAGE_EXECUTE_READWRITE false) w).
Proof.
  intros Hp.
  assert (E : InstallAllHooks hook w =
              Ret false
                (add_event
                   (EvProtect CLIENT_ISALREADYRUNNING_ADDR 16 PAGE_EXECUTE_READWRITE false) w))
    by (rewrite InstallAllHooks_unfold, (InstallMutexHook_miss w Hp); reflexivity).
  split; [exact E|]. rewrite HookStartup_unfold, E. reflexivity.
Qed.

Lemma install_stops_at_first_failure_witness :
  pages demo_world_nomutex !! MUTEX_PAGE = None /\
  InstallFileHook demo_hook demo_world_nomutex =
    Ret true (file_patched demo_hook PAGE_EXECUTE_READ 0x00A50000 [] demo_world_nomutex) /\
  HookStartup demo_hook demo_world_nomutex =
    Ret 0
      (add_event (EvProtect CLIENT_ISALREADYRUNNING_ADDR 16 PAGE_EXECUTE_READWRITE false)
         demo_world_nomutex).
Proof.
  split; [reflexivity|]. split; [reflexivity|].
  apply (install_stops_at_first_failure demo_hook demo_world_nomutex). reflexivity.
Defined.

(** X9 (VirtualAlloc failure). When VirtualAlloc returns NULL,
    InstallFileHook returns FALSE right away: its only system call is the
    failed allocation, host memory, page table and live blocks are untouched,
    and the handle is NULL whatever it held before. Under InstallAllHooks
    the mutex patch, already applied, stays in the target. *)
Theorem file_hook_alloc_failure (hook : Z) (w : World) :
  next_block w = None ->
  (exists w',
     InstallFileHook hook w = Ret false w' /\
     trace w' = trace w ++ [EvAlloc 32 NULL] /\
     mem w' = mem w /\ pages w' = pages w /\ allocs w' = allocs w /\
     g_fileHookTrampoline w' = NULL /\
     g_fileOriginalBytes w' = g_fileOriginalBytes w /\
     g_originalOpenDataFile w' = g_originalOpenDataFile w) /\
  (is_Some (pages w !! MUTEX_PAGE) ->
   exists w1,
     InstallAllHooks hook w = Ret false w1 /\
     g_hooksInstalled w1 = g_hooksInstalled w /\
     load_bytes (mem w1) CLIENT_ISALREADYRUNNING_ADDR 3 = [0x31; 0xC0; 0xC3]).
Proof.
  intros Hn. split.
  - exists (file_noalloc w). split; [apply InstallFileHook_noalloc, Hn|].
    repeat split.
  - intros [old Hp]. exists (file_noalloc (mutex_patched old w)).
    split.
    + rewrite InstallAllHooks_unfold, (InstallMutexHook_hit w old Hp).
      rewrite (InstallFileHook_noalloc hook (mutex_patched old w)) by exact Hn.
      reflexivity.
    + split; [reflexivity|].
      cbn [mem file_noalloc mutex_patched]. apply load_store_same_n. reflexivity.
Qed.

Lemma file_hook_alloc_failure_witness :
  next_block demo_world_noblock = None /\
  exists w1,
    InstallAllHooks demo_hook demo_world_noblock = Ret false w1 /\
    load_bytes (mem w1) CLIENT_ISALREADYRUNNING_ADDR 3 = [0x31; 0xC0; 0xC3].
Proof.
  split; [reflexivity|].
  destruct (file_hook_alloc_failure demo_hook demo_world_noblock eq_refl) as [_ H].
  destruct (H (ex_intro _ PAGE_EXECUTE_READ eq_refl)) as (w1 & E & _ & Hb).
  exists w1. split; [exact E | exact Hb].
Defined.

(** ** Installing twice, and installing again after an uninstall *)

Lemma load_bytes_split_eq m1 m2 a k n :
  load_bytes m1 a (k + n) = load_bytes m2 a (k + n) ->
  load_bytes m1 a k = load_bytes m2 a k /\
  load_bytes m1 (a + Z.of_nat k) n = load_bytes m2 (a + Z.of_nat k) n.
Proof.
  rewrite !load_bytes_app. intros H.
  apply app_inj_1 in H; [exact H | now rewrite !length_load_bytes].
Qed.

Lemma file_window_installed hook old1 old2 r w :
  r mod ALLOCATION_GRANULARITY = 0 ->
  load_bytes (mem (installed_world hook old1 old2 r w)) CLBLOCKALLOCATOR_OPENDATAFILE_ADDR 32 =
  (0xE9 :: le32 (hookOffset hook CLBLOCKALLOCATOR_OPENDATAFILE_ADDR)) ++
  load_bytes (mem w) (CLBLOCKALLOCATOR_OPENDATAFILE_ADDR + 5) 27.
Proof.
  intros Hm. pose proof (block_disjoint_file r Hm) as Hd.
  cbn [installed_world set_g_hooksInstalled file_patched mutex_patched mem].
  rewrite (load_store_prefix _ CLBLOCKALLOCATOR_OPENDATAFILE_ADDR
             (0xE9 :: le32 (hookOffset hook CLBLOCKALLOCATOR_OPENDATAFILE_ADDR)) 32)
    by (cbn [length le32]; lia).
  f_equal. cbn [length le32 Nat.sub Z.of_nat Pos.of_succ_nat Pos.succ].
  rewrite trampoline_mem_outside by addr_lia.
  apply load_store_disjoint. addr_lia.
Qed.

Lemma InstallAllHooks_hit hook w old1 r old2 :
  pages w !! MUTEX_PAGE = Some old1 -> next_block w = Some r ->
  pages w !! FILE_PAGE = Some old2 ->
  InstallAllHooks hook w = Ret true (installed_world hook old1 old2 r w).
Proof.
  intros Hp1 Hn Hp2.
  rewrite InstallAllHooks_unfold, (InstallMutexHook_hit w old1 Hp1).
  rewrite (InstallFileHook_hit hook (mutex_patched old1 w) r old2) by assumption.
  reflexivity.
Qed.

Lemma installed_world_pages hook old1 old2 r w :
  next_block w = Some r ->
  pages w !! MUTEX_PAGE = Some old1 -> pages w !! FILE_PAGE = Some old2 ->
  pages (installed_world hook old1 old2 r w) !! MUTEX_PAGE = Some old1 /\
  pages (installed_world hook old1 old2 r w) !! FILE_PAGE = Some old2.
Proof.
  intros Hn Hp1 Hp2. destruct (next_block_Some w r Hn) as [_ Hv].
  destruct (valid_base_inv w r Hv) as (_ & _ & Hm & _).
  destruct (block_page_not_target r Hm) as [Hne1 Hne2].
  change (pages (installed_world hook old1 old2 r w))
    with (<[page_of r := PAGE_EXECUTE_READWRITE]> (pages w)).
  rewrite !lookup_insert_ne by assumption. split; assumption.
Qed.

(** X10 (double install). InstallAllHooks is not protected against a second
    call. After a successful install, a second call succeeds whenever the
    system grants another block; it saves the patched windows over the saved
    originals, copies the diverting jump itself into the new trampoline, and
    drops the handle of the first block. The RemoveAllHooks that follows
    then writes the patches back: both targets still hold the patch, the
    flag is clear, and the first block stays allocated with no handle left
    to free it. *)
Theorem double_install_loses_originals (hook : Z) (w w1 : World) (r2 : Z) :
  InstallAllHooks hook w = Ret true w1 ->
  next_block w1 = Some r2 ->
  exists w2,
    InstallAllHooks hook w1 = Ret true w2 /\
    g_mutexOriginalBytes w2 =
      [0x31; 0xC0; 0xC3] ++ load_bytes (mem w) (CLIENT_ISALREADYRUNNING_ADDR + 3) 13 /\
    g_fileHookTrampoline w2 = r2 /\
    g_fileHookTrampoline w2 <> g_fileHookTrampoline w1 /\
    load_bytes (mem w2) (g_fileHookTrampoline w2) 5 =
      0xE9 :: le32 (hookOffset hook CLBLOCKALLOCATOR_OPENDATAFILE_ADDR) /\
    exists w3,
      RemoveAllHooks w2 = Ret tt w3 /\
      load_bytes (mem w3) CLIENT_ISALREADYRUNNING_ADDR 16 =
        [0x31; 0xC0; 0xC3] ++ load_bytes (mem w) (CLIENT_ISALREADYRUNNING_ADDR + 3) 13 /\
      load_bytes (mem w3) CLBLOCKALLOCATOR_OPENDATAFILE_ADDR 32 =
        (0xE9 :: le32 (hookOffset hook CLBLOCKALLOCATOR_OPENDATAFILE_ADDR)) ++
        load_bytes (mem w) (CLBLOCKALLOCATOR_OPENDATAFILE_ADDR + 5) 27 /\
      g_hooksInstalled w3 = false /\
      g_fileHookTrampoline w3 = NULL /\
      allocs w3 !! g_fileHookTrampoline w1 = Some 32.
Proof.
  intros H1 Hn'.
  apply InstallAllHooks_true_inv in H1 as (old1 & r & old2 & Hp1 & Hn & Hp2 & _ & _ & ->).
  fold (installed_world hook old1 old2 r w) in *.
  destruct (installed_world_pages hook old1 old2 r w Hn Hp1 Hp2) as [Hq1 Hq2].
  set (w1 := installed_world hook old1 old2 r w) in *.
  destruct (next_block_Some w r Hn) as [_ Hv].
  destruct (valid_base_inv w r Hv) as (_ & _ & Hm & _).
  destruct (next_block_Some w1 r2 Hn') as [_ Hv'].
  destruct (valid_base_inv w1 r2 Hv') as (_ & _ & Hm' & _ & Hna' & _).
  assert (Hal : allocs w1 !! r = Some 32) by apply lookup_insert_eq.
  assert (Hw1m : load_bytes (mem w1) CLIENT_ISALREADYRUNNING_ADDR 16 =
                 [0x31; 0xC0; 0xC3] ++
                 load_bytes (mem w) (CLIENT_ISALREADYRUNNING_ADDR + 3) 13)
    by (apply mutex_window_installed, Hm).
  assert (Hw1f := file_window_installed hook old1 old2 r w Hm). fold w1 in Hw1f.
  exists (installed_world hook old1 old2 r2 w1).
  split; [apply InstallAllHooks_hit; assumption|].
  split; [exact Hw1m|]. split; [reflexivity|].
  split.
  { change (g_fileHookTrampoline (installed_world hook old1 old2 r2 w1)) with r2.
    change (g_fileHookTrampoline w1) with r. congruence. }
  split.
  { assert (Hvm : valid_base (mutex_patched old1 w1) r2 32 = true) by exact Hv'.
    destruct (file_patched_jumps hook old2 r2 (tail (va_supply w1))
                (mutex_patched old1 w1) Hvm) as (_ & _ & J3 & _).
    cbv zeta in J3.
    change (g_fileHookTrampoline (installed_world hook old1 old2 r2 w1)) with r2.
    change (mem (installed_world hook old1 old2 r2 w1))
      with (mem (file_patched hook old2 r2 (tail (va_supply w1)) (mutex_patched old1 w1))).
    rewrite J3.
    change (mem (mutex_patched old1 w1))
      with (store_bytes (mem w1) CLIENT_ISALREADYRUNNING_ADDR patchBytes).
    rewrite load_store_disjoint by addr_lia.
    apply (patches_in_place hook old1 old2 r w Hm). }
  exists (uninstalled_world hook old1 old2 r2 w1).
  split; [apply RemoveAllHooks_installed_world; assumption|].
  destruct (windows_uninstalled hook old1 old2 r2 w1) as [Hu1 Hu2].
  split; [rewrite Hu1; exact Hw1m|]. split; [rewrite Hu2; exact Hw1f|].
  split; [reflexivity|]. split; [reflexivity|]. exact Hal.
Qed.

Lemma double_install_loses_originals_witness :
  InstallAllHooks demo_hook demo_world_two = Ret true demo_installed_two /\
  next_block demo_installed_two = Some 0x00A60000 /\
  exists w2,
    InstallAllHooks demo_hook demo_installed_two = Ret true w2 /\
    g_mutexOriginalBytes w2 =
      [0x31; 0xC0; 0xC3] ++
      load_bytes (mem demo_world_two) (CLIENT_ISALREADYRUNNING_ADDR + 3) 13.
Proof.
  split; [reflexivity|]. split; [reflexivity|].
  destruct (double_install_loses_originals demo_hook demo_world_two demo_installed_two
              0x00A60000 eq_refl eq_refl) as (w2 & H1 & H2 & _).
  exists w2. split; [exact H1 | exact H2].
Defined.

(** X11 (install, uninstall, install). After a successful install and
    uninstall, a new install succeeds whenever the system grants a block, and
    it ends where the first install ended: both target windows hold the same
    bytes as after the first install, the saved copies again hold the
    original windows, and the next RemoveAllHooks restores the original
    bytes once more. *)
Theorem reinstall_after_uninstall (hook : Z) (w w1 w2 : World) (r2 : Z) :
  InstallAllHooks hook w = Ret true w1 ->
  RemoveAllHooks w1 = Ret tt w2 ->
  next_block w2 = Some r2 ->
  exists w3,
    InstallAllHooks hook w2 = Ret true w3 /\
    load_bytes (mem w3) CLIENT_ISALREADYRUNNING_ADDR 16 =
      load_bytes (mem w1) CLIENT_ISALREADYRUNNING_ADDR 16 /\
    load_bytes (mem w3) CLBLOCKALLOCATOR_OPENDATAFILE_ADDR 32 =
      load_bytes (mem w1) CLBLOCKALLOCATOR_OPENDATAFILE_ADDR 32 /\
    g_mutexOriginalBytes w3 = load_bytes (mem w) CLIENT_ISALREADYRUNNING_ADDR 16 /\
    g_fileOriginalBytes w3 = load_bytes (mem w) CLBLOCKALLOCATOR_OPENDATAFILE_ADDR 32 /\
    exists w4,
      RemoveAllHooks w3 = Ret tt w4 /\
      load_bytes (mem w4) CLIENT_ISALREADYRUNNING_ADDR 16 =
        load_bytes (mem w) CLIENT_ISALREADYRUNNING_ADDR 16 /\
      load_bytes (mem w4) CLBLOCKALLOCATOR_OPENDATAFILE_ADDR 32 =
        load_bytes (mem w) CLBLOCKALLOCATOR_OPENDATAFILE_ADDR 32.
Proof.
  intros H1 H2 Hn'.
  apply InstallAllHooks_true_inv in H1 as (old1 & r & old2 & Hp1 & Hn & Hp2 & _ & _ & ->).
  fold (installed_world hook old1 old2 r w) in *.
  rewrite (RemoveAllHooks_installed_world hook old1 old2 r w Hp1 Hp2 Hn) in H2.
  injection H2 as <-.
  assert (Hq1 : pages (uninstalled_world hook old1 old2 r w) !! MUTEX_PAGE = Some old1)
    by exact Hp1.
  assert (Hq2 : pages (uninstalled_world hook old1 old2 r w) !! FILE_PAGE = Some old2)
    by exact Hp2.
  set (w2 := uninstalled_world hook old1 old2 r w) in *.
  destruct (next_block_Some w r Hn) as [_ Hv].
  destruct (valid_base_inv w r Hv) as (_ & _ & Hm & _).
  destruct (next_block_Some w2 r2 Hn') as [_ Hv'].
  destruct (valid_base_inv w2 r2 Hv') as (_ & _ & Hm' & _).
  destruct (windows_uninstalled hook old1 old2 r w) as [Hu1 Hu2]. fold w2 in Hu1, Hu2.
  destruct (load_bytes_split_eq (mem w2) (mem w) CLIENT_ISALREADYRUNNING_ADDR 3 13 Hu1)
    as [_ Hs1].
  destruct (load_bytes_split_eq (mem w2) (mem w) CLBLOCKALLOCATOR_OPENDATAFILE_ADDR 5 27 Hu2)
    as [_ Hs2].
  change (Z.of_nat 3) with 3 in Hs1. change (Z.of_nat 5) with 5 in Hs2.
  exists (installed_world hook old1 old2 r2 w2).
  split; [apply InstallAllHooks_hit; assumption|].
  split.
  { rewrite (mutex_window_installed hook old1 old2 r2 w2 Hm').
    rewrite (mutex_window_installed hook old1 old2 r w Hm). now rewrite Hs1. }
  split.
  { rewrite (file_window_installed hook old1 old2 r2 w2 Hm').
    rewrite (file_window_installed hook old1 old2 r w Hm). now rewrite Hs2. }
  split; [exact Hu1|].
  split.
  { change (g_fileOriginalBytes (installed_world hook old1 old2 r2 w2))
      with (load_bytes (store_bytes (mem w2) CLIENT_ISALREADYRUNNING_ADDR patchBytes)
              CLBLOCKALLOCATOR_OPENDATAFILE_ADDR 32).
    rewrite file_snapshot_after_mutex. exact Hu2. }
  exists (uninstalled_world hook old1 old2 r2 w2).
  split; [apply RemoveAllHooks_installed_world; assumption|].
  destruct (windows_uninstalled hook old1 old2 r2 w2) as [Hx1 Hx2].
  split; [rewrite Hx1; exact Hu1 | rewrite Hx2; exact Hu2].
Qed.

Lemma reinstall_after_uninstall_witness :
  InstallAllHooks demo_hook demo_world_two = Ret true demo_installed_two /\
  RemoveAllHooks demo_installed_two = Ret tt demo_uninstalled_two /\
  next_block demo_uninstalled_two = Some 0x00A60000 /\
  exists w3,
    InstallAllHooks demo_hook demo_uninstalled_two = Ret true w3 /\
    g_mutexOriginalBytes w3 =
      load_bytes (mem demo_world_two) CLIENT_ISALREADYRUNNING_ADDR 16.
Proof.
  split; [reflexivity|]. split; [reflexivity|]. split; [reflexivity|].
  destruct (reinstall_after_uninstall demo_hook demo_world_two demo_installed_two
              demo_uninstalled_two 0x00A60000 eq_refl eq_refl eq_refl)
    as (w3 & H1 & _ & _ & H2 & _).
  exists w3. split; [exact H1 | exact H2].
Defined.

(** X12 (DllMain). DllMain returns TRUE from every world and for every
    notification, without a fault. It never installs anything: for every
    notification other than DLL_PROCESS_DETACH the world is unchanged, and
    on DLL_PROCESS_DETACH the world is the one RemoveAllHooks leaves. *)
Theorem DllMain_only_tears_down (hModule reason lpReserved : Z) (w : World) :
  exists w',
    DllMain hModule reason lpReserved w = Ret true w' /\
    (reason <> DLL_PROCESS_DETACH -> w' = w) /\
    (reason = DLL_PROCESS_DETACH -> RemoveAllHooks w = Ret tt w') /\
    (g_hooksInstalled w = false -> w' = w).
Proof.
  assert (Hrun : forall w', (if reason =? DLL_PROCESS_ATTACH then Ret tt w
                             else if reason =? DLL_PROCESS_DETACH then RemoveAllHooks w
                             else Ret tt w) = Ret tt w' ->
                            DllMain hModule reason lpReserved w = Ret true w').
  { intros w' H. unfold DllMain. rewrite run_bind.
    destruct (reason =? DLL_PROCESS_ATTACH); [injection H as <-; reflexivity|].
    destruct (reason =? DLL_PROCESS_DETACH); [rewrite H; reflexivity|].
    injection H as <-. reflexivity. }
  destruct (Z.eqb_spec reason DLL_PROCESS_ATTACH) as [Ea|Ea].
  - exists w. split; [apply Hrun; reflexivity|]. split; [reflexivity|].
    split; [|reflexivity]. intros Hd. rewrite Hd in Ea. discriminate.
  - destruct (Z.eqb_spec reason DLL_PROCESS_DETACH) as [Ed|Ed].
    + destruct (RemoveAllHooks_returns w) as [w' E].
      exists w'. split; [apply Hrun; exact E|]. split; [contradiction|].
      split; [intros _; exact E|].
      intros Hf. pose proof (RemoveAllHooks_idle w Hf) as E'. congruence.
    + exists w. split; [apply Hrun; reflexivity|]. split; [reflexivity|].
      split; [contradiction | reflexivity].
Qed.

Lemma reverted_mem_at addr size snap w a :
  0 <= size -> a < addr \/ addr + size <= a ->
  mem (reverted addr size snap w) a = mem w a.
Proof.
  intros Hs Ha. unfold reverted. destruct (pages w !! page_of addr); [|reflexivity].
  cbn [mem]. apply store_bytes_outside. rewrite length_resize, Z2Nat.id by exact Hs. exact Ha.
Qed.

(** X13 (uninstall frame). Whatever state it starts from, RemoveAllHooks
    changes no byte of host memory outside the 16-byte mutex window and the
    32-byte file window. *)
Theorem uninstall_frame (w w' : World) :
  RemoveAllHooks w = Ret tt w' ->
  forall a,
    a < CLIENT_ISALREADYRUNNING_ADDR \/ CLIENT_ISALREADYRUNNING_ADDR + 16 <= a ->
    a < CLBLOCKALLOCATOR_OPENDATAFILE_ADDR \/ CLBLOCKALLOCATOR_OPENDATAFILE_ADDR + 32 <= a ->
    mem w' a = mem w a.
Proof.
  intros H a Hm Hf. destruct (g_hooksInstalled w) eqn:Hi.
  - rewrite (RemoveAllHooks_installed w Hi) in H. injection H as <-.
    rewrite removed_mem.
    rewrite reverted_mem_at by (try exact Hf; lia).
    apply reverted_mem_at; [lia | exact Hm].
  - rewrite (RemoveAllHooks_idle w Hi) in H. injection H as <-. reflexivity.
Qed.

Lemma uninstall_frame_witness :
  RemoveAllHooks demo_installed = Ret tt demo_uninstalled /\
  mem demo_uninstalled (CLIENT_ISALREADYRUNNING_ADDR + 16) =
    mem demo_installed (CLIENT_ISALREADYRUNNING_ADDR + 16).
Proof.
  split; [reflexivity|].
  apply (uninstall_frame demo_installed demo_uninstalled eq_refl).
  - right. lia.
  - left. unfold CLIENT_ISALREADYRUNNING_ADDR, CLBLOCKALLOCATOR_OPENDATAFILE_ADDR. lia.
Defined.
